(** * The curriculum-standard recommendation engine

    A shallow embedding of the recommendation hook
    [useCurriculumRecommendation] (hooks/useCurriculumRecommendation),
    of the static catalog it scores (utils/curriculumStandards) and of
    the inline engine of the [CurriculumSelector] component, followed by
    the properties the specification states about them.

    Conventions of the embedding.
    - A JavaScript string is a [string]: the bytes of its UTF-8
      encoding.  Every literal the engine compares against is ASCII, so
      [===] is byte equality and [includes] with an ASCII needle is a
      byte-level substring test.
    - A JavaScript number that the engine only adds, compares and clamps
      is a [Z]; the mean computed by the analytics is a [JS.number]
      (NaN, an infinity, or a rational).
    - The union-of-literals types of the TypeScript interfaces are
      enumerations, one small module each.
    - The local variables of a scoring run are one record that the six
      rules update in source order.
    - The artificial delay and the [isAnalyzing] flag of the asynchronous
      functions carry no data; a run is the function of its inputs. *)

From Stdlib Require Import ZArith QArith List String Ascii Bool Lia.
From Stdlib Require Import Sorted Permutation DecimalString.
Import ListNotations.

Open Scope string_scope.
Open Scope list_scope.
Open Scope Z_scope.

(* ------------------------------------------------------------------ *)
(** ** The JavaScript built-ins the engine calls *)

Module JS.

(** Forward application, to write a block of assignments top to bottom. *)
Definition andThen {A B : Type} (x : A) (f : A -> B) : B := f x.

Definition codeOf (c : ascii) : Z := Z.of_nat (nat_of_ascii c).

Definition utf8 (bytes : list nat) : string :=
  fold_right (fun b s => String (ascii_of_nat b) s) EmptyString bytes.

(** [String.prototype.toLowerCase].  Only the letters A-Z have a lower
    case that is an ASCII letter other than through U+0130 (whose lower
    case is [i] followed by U+0307, a pair that matches nothing in an
    ASCII needle) and U+212A (whose lower case is [k]); the bytes of
    every other character are left as they are, which does not change
    any test against the needle ["india"]. *)
Definition toLowerCaseChar (c : ascii) : ascii :=
  if (65 <=? codeOf c) && (codeOf c <=? 90)
  then ascii_of_nat (nat_of_ascii c + 32)
  else c.

Fixpoint toLowerCase (s : string) : string :=
  match s with
  | EmptyString => EmptyString
  | String c rest => String (toLowerCaseChar c) (toLowerCase rest)
  end.

Fixpoint startsWith (s searchString : string) : bool :=
  match searchString, s with
  | EmptyString, _ => true
  | String _ _, EmptyString => false
  | String p ps, String c cs => Ascii.eqb p c && startsWith cs ps
  end.

(** [String.prototype.includes]. *)
Fixpoint includes (s searchString : string) : bool :=
  startsWith s searchString
  || match s with
     | EmptyString => false
     | String _ rest => includes rest searchString
     end.

Fixpoint dropChars (n : nat) (s : string) : string :=
  match n, s with
  | O, _ => s
  | S _, EmptyString => EmptyString
  | S k, String _ rest => dropChars k rest
  end.

(** White space and line terminators (ECMA-262, StrWhiteSpaceChar), as
    UTF-8: TAB, LF, VT, FF, CR, SP, U+00A0, U+1680, U+2000 to U+200A,
    U+2028, U+2029, U+202F, U+205F, U+3000 and U+FEFF. *)
Definition StrWhiteSpaceChar : list string :=
  map utf8
    [ [9]; [10]; [11]; [12]; [13]; [32]; [194; 160]; [225; 154; 128];
      [226; 128; 128]; [226; 128; 129]; [226; 128; 130]; [226; 128; 131];
      [226; 128; 132]; [226; 128; 133]; [226; 128; 134]; [226; 128; 135];
      [226; 128; 136]; [226; 128; 137]; [226; 128; 138];
      [226; 128; 168]; [226; 128; 169]; [226; 128; 175];
      [226; 129; 159]; [227; 128; 128]; [239; 187; 191] ]%nat.

Definition leadingWhiteSpace (s : string) : option string :=
  find (startsWith s) StrWhiteSpaceChar.

Fixpoint trimStartFuel (fuel : nat) (s : string) : string :=
  match fuel with
  | O => s
  | S k =>
      match leadingWhiteSpace s with
      | Some w => trimStartFuel k (dropChars (String.length w) s)
      | None => s
      end
  end.

Definition trimStart (s : string) : string :=
  trimStartFuel (String.length s) s.

Definition digitValue (c : ascii) : option Z :=
  let n := codeOf c in
  if (48 <=? n) && (n <=? 57) then Some (n - 48)
  else if (97 <=? n) && (n <=? 122) then Some (n - 87)
  else if (65 <=? n) && (n <=? 90) then Some (n - 55)
  else None.

(** The longest prefix of radix-[R] digits, read as an integer; [acc] is
    [None] until a digit has been read. *)
Fixpoint parseDigits (R : Z) (s : string) (acc : option Z) : option Z :=
  match s with
  | EmptyString => acc
  | String c rest =>
      match digitValue c with
      | Some d =>
          if d <? R
          then parseDigits R rest
                 (Some (match acc with Some a => a * R + d | None => d end))
          else acc
      | None => acc
      end
  end.

(** [parseInt(string)] with no radix argument (ECMA-262, 19.2.5); [None]
    is NaN.  The engine only compares the result with 5 and 9, and
    rounding a mathematical integer to a double is monotone and leaves 5
    and 9 fixed, so the comparisons read the same on the exact value. *)
Definition parseInt (inputString : string) : option Z :=
  let S0 := trimStart inputString in
  let '(sign, S1) :=
    match S0 with
    | String "-" rest => (-1, rest)
    | String "+" rest => (1, rest)
    | _ => (1, S0)
    end in
  let '(R, S2) :=
    if startsWith S1 "0x" || startsWith S1 "0X"
    then (16, dropChars 2 S1)
    else (10, S1) in
  match parseDigits R S2 None with
  | None => None
  | Some mathInt => Some (sign * mathInt)
  end.

(** [gradeNum <= k] and [gradeNum >= k]: false on NaN. *)
Definition numLe (n : option Z) (k : Z) : bool :=
  match n with Some v => v <=? k | None => false end.

Definition numGe (n : option Z) (k : Z) : bool :=
  match n with Some v => k <=? v | None => false end.

(** [Array.prototype.sort(comparefn)].  The sort is stable (ECMA-262
    since the 2019 edition) and, for a comparator that is a consistent
    ordering, its result is therefore determined: a straight insertion
    from the right, which moves an element past the ones it compares
    strictly greater than and never past an equal one. *)
Fixpoint insert {A : Type} (comparefn : A -> A -> Z) (x : A) (l : list A)
  : list A :=
  match l with
  | [] => [x]
  | y :: rest =>
      if 0 <? comparefn x y
      then y :: insert comparefn x rest
      else x :: y :: rest
  end.

Fixpoint sort {A : Type} (comparefn : A -> A -> Z) (l : list A) : list A :=
  match l with
  | [] => []
  | x :: rest => insert comparefn x (sort comparefn rest)
  end.

(** Numbers that come out of a division. *)
Inductive number : Type :=
| NaN
| Infinity (negative : bool)
| Num (q : Q).

(** [sum / count] for an integer [sum] and an array length [count]. *)
Definition divide (sum : Z) (count : nat) : number :=
  match count with
  | O => if sum =? 0 then NaN else Infinity (sum <? 0)
  | S _ => Num (sum # Pos.of_nat count)
  end.

(** [Math.min(x, k)] for a rational [k]. *)
Definition mathMin (x : number) (k : Q) : number :=
  match x with
  | NaN => NaN
  | Infinity true => Infinity true
  | Infinity false => Num k
  | Num q => if Qle_bool q k then Num q else Num k
  end.

Definition plus (x : number) (k : Q) : number :=
  match x with
  | Num q => Num (q + k)
  | other => other
  end.

(** The outcome of a call that may throw. *)
Inductive error : Type :=
| TypeError (message : string).

Inductive completion (A : Type) : Type :=
| Return (value : A)
| Throw (e : error).

Arguments Return {A} value.
Arguments Throw {A} e.

(** [Array.prototype.reduce(callbackfn)] with no initial value: the
    first element seeds the accumulator, and an empty array throws. *)
Definition reduce {A : Type} (callbackfn : A -> A -> A) (l : list A)
  : completion A :=
  match l with
  | [] => Throw (TypeError "Reduce of empty array with no initial value")
  | first :: rest => Return (fold_left callbackfn rest first)
  end.

(** [Array.prototype.indexOf]: the first index holding the string, or -1. *)
Fixpoint indexOfFrom (searchElement : string) (l : list string) (from : Z)
  : Z :=
  match l with
  | [] => -1
  | x :: rest =>
      if (x =? searchElement)%string then from
      else indexOfFrom searchElement rest (from + 1)
  end.

Definition indexOf (l : list string) (searchElement : string) : Z :=
  indexOfFrom searchElement l 0.

(** [Array.prototype.filter] with a callback that also reads the index. *)
Fixpoint filterFrom {A : Type} (predicate : A -> Z -> bool) (from : Z)
  (l : list A) : list A :=
  match l with
  | [] => []
  | x :: rest =>
      if predicate x from
      then x :: filterFrom predicate (from + 1) rest
      else filterFrom predicate (from + 1) rest
  end.

Definition filterIndexed {A : Type} (predicate : A -> Z -> bool) (l : list A)
  : list A :=
  filterFrom predicate 0 l.

(** [Array.prototype.includes] on an array of strings. *)
Definition arrayIncludes (l : list string) (searchElement : string) : bool :=
  existsb (fun x => (x =? searchElement)%string) l.

(** [s.replace(/\s+/g, '-')]: every maximal run of white space becomes
    one hyphen.  The class [\s] is the white space of [parseInt]. *)
Fixpoint replaceWhiteSpaceRunsFuel (fuel : nat) (s : string) : string :=
  match fuel with
  | O => s
  | S k =>
      match s with
      | EmptyString => EmptyString
      | String c rest =>
          match leadingWhiteSpace s with
          | Some _ => String "-" (replaceWhiteSpaceRunsFuel k (trimStart s))
          | None => String c (replaceWhiteSpaceRunsFuel k rest)
          end
      end
  end.

Definition replaceWhiteSpaceRuns (s : string) : string :=
  replaceWhiteSpaceRunsFuel (String.length s) s.

(** A plain object used as a map from string keys, as the list of its
    own entries.  [o[key] = value] with an object for [value] overwrites
    the own entry of an existing key and adds a missing one, except for
    the key [__proto__]: that assignment reaches the setter inherited
    from [Object.prototype], which replaces the prototype of [o] and
    leaves its own entries as they are.  [getProperty] reads an own
    entry.  (The enumeration order of keys that look like array indices
    and the lookups that fall through to the prototype are not part of
    this model.) *)
Fixpoint setOwnProperty {V : Type} (o : list (string * V)) (key : string)
  (value : V) : list (string * V) :=
  match o with
  | [] => [(key, value)]
  | (k, v) :: rest =>
      if (k =? key)%string
      then (k, value) :: rest
      else (k, v) :: setOwnProperty rest key value
  end.

Definition setProperty {V : Type} (o : list (string * V)) (key : string)
  (value : V) : list (string * V) :=
  if (key =? "__proto__")%string then o else setOwnProperty o key value.

Fixpoint getProperty {V : Type} (o : list (string * V)) (key : string)
  : option V :=
  match o with
  | [] => None
  | (k, v) :: rest =>
      if (k =? key)%string then Some v else getProperty rest key
  end.

(** The one-character string that holds a double quote. *)
Definition doubleQuote : string := String (ascii_of_nat 34) EmptyString.

(** The decimal digits of a natural number. *)
Definition decimal (n : N) : string :=
  NilZero.string_of_uint (N.to_uint n).

(** [(bytes / (1024 * 1024)).toFixed(1)] for a file size below 2^53.
    Dividing by a power of two is exact, and [toFixed(1)] prints the
    integer [n] nearest to ten times the value, the larger one on a tie,
    with one digit after the point. *)
Definition megabytesToFixed1 (bytes : N) : string :=
  let n := ((20 * bytes + 1048576) / 2097152)%N in
  (decimal (n / 10) ++ "." ++ decimal (n mod 10))%string.

End JS.

Notation "x |> f" := (JS.andThen x f)
  (at level 45, left associativity, only parsing).

(* ------------------------------------------------------------------ *)
(** ** utils/curriculumStandards: the static catalog *)

Module Tier.
Inductive t : Type := primary | secondary.
End Tier.

Module Region.
Inductive t : Type := national | state | international.

Definition eqb (a b : t) : bool :=
  match a, b with
  | national, national | state, state | international, international => true
  | _, _ => false
  end.
End Region.

Module CurriculumStandards.

Record CurriculumStandard : Type := {
  id : string;
  name : string;
  nameHindi : string;
  description : string;
  descriptionHindi : string;
  priority : Tier.t;
  region : Region.t;
  grades : list string;
  subjects : list string;
  website : string
}.

Definition INDIAN_CURRICULUM_STANDARDS : list CurriculumStandard := [
  {| id := "ncert";
     name := "NCERT (National Council of Educational Research and Training)";
     nameHindi := "राष्ट्रीय शैक्षिक अनुसंधान और प्रशिक्षण परिषद";
     description := "National curriculum framework for Indian schools";
     descriptionHindi := "भारतीय स्कूलों के लिए राष्ट्रीय पाठ्यक्रम ढांचा";
     priority := Tier.primary;
     region := Region.national;
     grades := ["1"; "2"; "3"; "4"; "5"; "6"; "7"; "8"; "9"; "10"];
     subjects := ["mathematics"; "science"; "english"; "hindi";
                  "social-studies"; "art"];
     website := "https://ncert.nic.in" |};
  {| id := "cbse";
     name := "CBSE (Central Board of Secondary Education)";
     nameHindi := "केंद्रीय माध्यमिक शिक्षा बोर्ड";
     description := "Central board curriculum for Indian schools";
     descriptionHindi := "भारतीय स्कूलों के लिए केंद्रीय बोर्ड पाठ्यक्रम";
     priority := Tier.primary;
     region := Region.national;
     grades := ["1"; "2"; "3"; "4"; "5"; "6"; "7"; "8"; "9"; "10"];
     subjects := ["mathematics"; "science"; "english"; "hindi";
                  "social-studies"; "art"];
     website := "https://cbse.gov.in" |};
  {| id := "icse";
     name := "ICSE (Indian Certificate of Secondary Education)";
     nameHindi := "भारतीय माध्यमिक शिक्षा प्रमाणपत्र";
     description :=
       "Council for Indian School Certificate Examinations curriculum";
     descriptionHindi := "भारतीय स्कूल प्रमाणपत्र परीक्षा परिषद पाठ्यक्रम";
     priority := Tier.primary;
     region := Region.national;
     grades := ["1"; "2"; "3"; "4"; "5"; "6"; "7"; "8"; "9"; "10"];
     subjects := ["mathematics"; "science"; "english"; "hindi";
                  "social-studies"; "art"];
     website := "https://cisce.org" |}
].

Definition INTERNATIONAL_STANDARDS : list CurriculumStandard := [
  {| id := "ib";
     name := "International Baccalaureate (IB)";
     nameHindi := "अंतर्राष्ट्रीय स्नातक";
     description := "Global education program with international perspective";
     descriptionHindi := "अंतर्राष्ट्रीय दृष्टिकोण के साथ वैश्विक शिक्षा कार्यक्रम";
     priority := Tier.secondary;
     region := Region.international;
     grades := ["1"; "2"; "3"; "4"; "5"; "6"; "7"; "8"; "9"; "10"];
     subjects := ["mathematics"; "science"; "english"; "social-studies";
                  "art"];
     website := "https://ibo.org" |};
  {| id := "cambridge";
     name := "Cambridge International";
     nameHindi := "कैम्ब्रिज अंतर्राष्ट्रीय";
     description := "British curriculum with global recognition";
     descriptionHindi := "वैश्विक मान्यता के साथ ब्रिटिश पाठ्यक्रम";
     priority := Tier.secondary;
     region := Region.international;
     grades := ["1"; "2"; "3"; "4"; "5"; "6"; "7"; "8"; "9"; "10"];
     subjects := ["mathematics"; "science"; "english"; "social-studies";
                  "art"];
     website := "https://cambridgeinternational.org" |};
  {| id := "common-core";
     name := "Common Core State Standards";
     nameHindi := "सामान्य मूल राज्य मानक";
     description := "American educational standards";
     descriptionHindi := "अमेरिकी शैक्षिक मानक";
     priority := Tier.secondary;
     region := Region.international;
     grades := ["1"; "2"; "3"; "4"; "5"; "6"; "7"; "8"; "9"; "10"];
     subjects := ["mathematics"; "science"; "english"; "social-studies";
                  "art"];
     website := "https://corestandards.org" |}
].

End CurriculumStandards.

(** *** utils/curriculumStandards: the alignment functions *)

Module AlignmentLevel.
Inductive t : Type := full | partial | supplementary.
End AlignmentLevel.

Module Level.
Inductive t : Type := low | medium | high.
End Level.

Module TopicAlignment.
Record t : Type := {
  topicId : string;
  standardId : string;
  alignmentLevel : AlignmentLevel.t;
  learningObjectives : list string;
  assessmentCriteria : list string;
  prerequisites : list string
}.
End TopicAlignment.

Module ContentGap.
Record t : Type := {
  standardId : string;
  subject : string;
  grade : string;
  missingTopics : list string;
  partiallyAlignedTopics : list string;
  recommendations : list string
}.
End ContentGap.

Module CurriculumAlignment.
Import CurriculumStandards.

(** [currentContent] is an [any[]] that the function never reads. *)
Definition analyzeCurriculumGaps {A : Type} (currentContent : list A)
  (targetStandard : CurriculumStandard) (grade subject : string)
  : ContentGap.t :=
  {| ContentGap.standardId := id targetStandard;
     ContentGap.subject := subject;
     ContentGap.grade := grade;
     ContentGap.missingTopics :=
       ["Advanced problem-solving techniques";
        "Cultural context integration";
        "Assessment rubrics alignment"];
     ContentGap.partiallyAlignedTopics :=
       ["Basic mathematical operations";
        "Scientific method introduction";
        "Reading comprehension skills"];
     ContentGap.recommendations :=
       [("Enhance content with " ++ name targetStandard
         ++ " specific learning objectives")%string;
        "Add more culturally relevant examples for Indian context";
        "Include assessment criteria matching board requirements";
        "Integrate Hindi language support for key concepts"] |}.

Record PriorityItem : Type := {
  topic : string;
  priority : Level.t;
  effort : Level.t;
  impact : Level.t
}.

Record AlignmentReport : Type := {
  overallScore : Z;
  criticalGaps : list string;
  recommendations : list string;
  implementationPriority : list PriorityItem
}.

Section Report.

(** [Math.round((alignedTopics / totalTopics) * 100)], a computation in
    double-precision arithmetic that is left as a parameter. *)
Variable roundedPercentage : Z -> Z -> Z.

Definition generateAlignmentReport (gaps : list ContentGap.t)
  (standard : CurriculumStandard) : AlignmentReport :=
  let totalTopics :=
    fold_left
      (fun sum gap =>
         sum + Z.of_nat (List.length (ContentGap.missingTopics gap))
         + Z.of_nat (List.length (ContentGap.partiallyAlignedTopics gap)))
      gaps 0 in
  let alignedTopics :=
    fold_left
      (fun sum gap =>
         sum + Z.of_nat (List.length (ContentGap.partiallyAlignedTopics gap)))
      gaps 0 in
  let overallScore :=
    if 0 <? totalTopics
    then roundedPercentage alignedTopics totalTopics
    else 100 in
  let criticalGaps :=
    let array := flat_map ContentGap.missingTopics gaps in
    firstn 5
      (JS.filterIndexed (fun topic index => JS.indexOf array topic =? index)
         array) in
  let recommendations :=
    [("Prioritize alignment with " ++ name standard
      ++ " learning objectives")%string;
     "Develop Indian context examples for international concepts";
     "Create bilingual content for Hindi-medium schools";
     "Implement progressive assessment aligned with board requirements";
     "Add teacher training materials for new curriculum features"] in
  let implementationPriority :=
    [ {| topic := "Core curriculum alignment";
         priority := Level.high; effort := Level.high;
         impact := Level.high |};
      {| topic := "Hindi language integration";
         priority := Level.high; effort := Level.medium;
         impact := Level.high |};
      {| topic := "Assessment criteria mapping";
         priority := Level.medium; effort := Level.medium;
         impact := Level.high |};
      {| topic := "Cultural context examples";
         priority := Level.medium; effort := Level.low;
         impact := Level.medium |};
      {| topic := "International standards integration";
         priority := Level.low; effort := Level.high;
         impact := Level.medium |} ] in
  {| overallScore := overallScore;
     criticalGaps := criticalGaps;
     recommendations := recommendations;
     implementationPriority := implementationPriority |}.

(** [runAlignmentAnalysis] of the alignment dashboard: the report it
    stores for the selected standard. *)
Definition runAlignmentAnalysis (selectedStandard : CurriculumStandard)
  : AlignmentReport :=
  let mockGaps :=
    [ analyzeCurriculumGaps (@nil unit) selectedStandard "5" "mathematics";
      analyzeCurriculumGaps (@nil unit) selectedStandard "8" "science";
      analyzeCurriculumGaps (@nil unit) selectedStandard "3" "english" ] in
  generateAlignmentReport mockGaps selectedStandard.

End Report.

Section Mapping.

(** [String.prototype.toLowerCase] on arbitrary text, left as a
    parameter: the topic may hold letters outside ASCII. *)
Variable toLowerCase : string -> string.

(** One turn of [standards.forEach]. *)
Definition mapStandard (topic grade subject : string)
  (mappings : list (string * TopicAlignment.t)) (standard : CurriculumStandard)
  : list (string * TopicAlignment.t) :=
  if JS.arrayIncludes (grades standard) grade
     && JS.arrayIncludes (subjects standard) subject
  then
    JS.setProperty mappings (id standard)
      {| TopicAlignment.topicId :=
           (subject ++ "-" ++ grade ++ "-"
            ++ JS.replaceWhiteSpaceRuns (toLowerCase topic))%string;
         TopicAlignment.standardId := id standard;
         TopicAlignment.alignmentLevel := AlignmentLevel.partial;
         TopicAlignment.learningObjectives :=
           [("Understand fundamental concepts of " ++ topic)%string;
            ("Apply " ++ topic ++ " knowledge in practical situations")%string;
            "Demonstrate mastery through assessment"];
         TopicAlignment.assessmentCriteria :=
           ["Conceptual understanding"; "Practical application";
            "Problem-solving ability"];
         TopicAlignment.prerequisites :=
           ["Basic foundational knowledge"; "Age-appropriate reading level";
            "Previous grade concepts mastery"] |}
  else mappings.

Definition createContentMapping (topic grade subject : string)
  (standards : list CurriculumStandard) : list (string * TopicAlignment.t) :=
  fold_left (mapStandard topic grade subject) standards [].

End Mapping.

End CurriculumAlignment.

(* ------------------------------------------------------------------ *)
(** ** The literal types shared by the two engines *)

Module SchoolType.
Inductive t : Type := government | private | international.
End SchoolType.

Module Language.
Inductive t : Type := english | hindi.
End Language.

Module Experience.
Inductive t : Type := beginner | intermediate | expert.
End Experience.

Module ClassSize.
Inductive t : Type := small | medium | large.
End ClassSize.

Module Resources.
Inductive t : Type := limited | moderate | abundant.
End Resources.

Module Priority.
Inductive t : Type := primary | secondary | alternative.

Definition eqb (a b : t) : bool :=
  match a, b with
  | primary, primary | secondary, secondary | alternative, alternative => true
  | _, _ => false
  end.
End Priority.

Module Complexity.
Inductive t : Type := low | medium | high.
End Complexity.

(** [location.toLowerCase().includes('india') || location === 'in']. *)
Definition indicatesIndia (location : string) : bool :=
  JS.includes (JS.toLowerCase location) "india" || (location =? "in")%string.

(* ------------------------------------------------------------------ *)
(** ** hooks/useCurriculumRecommendation: the general engine *)

Module UseCurriculumRecommendation.
Import CurriculumStandards.

Record UserContext : Type := {
  location : string;
  schoolType : SchoolType.t;
  language : Language.t;
  gradeLevel : option string;
  previousSelections : option (list string);
  teachingExperience : option Experience.t;
  classSize : option ClassSize.t;
  resourceAvailability : option Resources.t
}.

Record RecommendationResult : Type := {
  standard : CurriculumStandard;
  confidence : Z;
  reasons : list string;
  priority : Priority.t;
  implementationComplexity : Complexity.t;
  expectedOutcomes : list string
}.

Record RecommendationAnalytics : Type := {
  totalRecommendations : nat;
  averageConfidence : JS.number;
  topCategory : string;
  userSatisfactionPrediction : JS.number;
  implementationTimeEstimate : string
}.

(** The assignments of [analyzeStandardFit], on the record of its local
    variables. *)
Definition addConfidence (n : Z) (r : RecommendationResult) :=
  {| standard := standard r;
     confidence := confidence r + n;
     reasons := reasons r;
     priority := priority r;
     implementationComplexity := implementationComplexity r;
     expectedOutcomes := expectedOutcomes r |}.

Definition pushReason (reason : string) (r : RecommendationResult) :=
  {| standard := standard r;
     confidence := confidence r;
     reasons := reasons r ++ [reason];
     priority := priority r;
     implementationComplexity := implementationComplexity r;
     expectedOutcomes := expectedOutcomes r |}.

Definition setPriority (p : Priority.t) (r : RecommendationResult) :=
  {| standard := standard r;
     confidence := confidence r;
     reasons := reasons r;
     priority := p;
     implementationComplexity := implementationComplexity r;
     expectedOutcomes := expectedOutcomes r |}.

Definition setComplexity (c : Complexity.t) (r : RecommendationResult) :=
  {| standard := standard r;
     confidence := confidence r;
     reasons := reasons r;
     priority := priority r;
     implementationComplexity := c;
     expectedOutcomes := expectedOutcomes r |}.

Definition pushOutcome (outcome : string) (r : RecommendationResult) :=
  {| standard := standard r;
     confidence := confidence r;
     reasons := reasons r;
     priority := priority r;
     implementationComplexity := implementationComplexity r;
     expectedOutcomes := expectedOutcomes r ++ [outcome] |}.

(** The local variables as declared at the top of [analyzeStandardFit]. *)
Definition initially (standard : CurriculumStandard) : RecommendationResult :=
  {| standard := standard;
     confidence := 0;
     reasons := [];
     priority := Priority.alternative;
     implementationComplexity := Complexity.medium;
     expectedOutcomes := [] |}.

(** Geographic and cultural alignment. *)
Definition geographicAlignment (context : UserContext)
  (r : RecommendationResult) : RecommendationResult :=
  if indicatesIndia (location context) then
    match region (standard r) with
    | Region.national =>
        r |> addConfidence 35
          |> pushReason
               "Designed specifically for Indian educational ecosystem"
          |> setPriority Priority.primary
          |> setComplexity Complexity.low
          |> pushOutcome
               "Seamless integration with existing Indian school systems"
    | _ =>
        r |> addConfidence 15
          |> pushReason "Provides valuable international perspective"
          |> setPriority Priority.secondary
          |> setComplexity Complexity.high
          |> pushOutcome "Enhanced global awareness for students"
    end
  else
    match region (standard r) with
    | Region.international =>
        r |> addConfidence 30
          |> pushReason "International standard suitable for global schools"
          |> setPriority Priority.primary
    | _ => r
    end.

(** School type alignment. *)
Definition schoolTypeAlignment (context : UserContext)
  (r : RecommendationResult) : RecommendationResult :=
  match schoolType context with
  | SchoolType.government =>
      if (id (standard r) =? "ncert")%string then
        r |> addConfidence 25
          |> pushReason
               "NCERT is the official framework for government schools"
          |> pushOutcome
               "Direct alignment with government education policies"
      else if (id (standard r) =? "cbse")%string then
        r |> addConfidence 15
          |> pushReason "CBSE builds upon NCERT foundation"
      else r
  | SchoolType.private =>
      if (id (standard r) =? "cbse")%string
         || (id (standard r) =? "icse")%string then
        r |> addConfidence 20
          |> pushReason
               "Widely adopted by private schools for board exam preparation"
          |> pushOutcome "Strong board exam performance"
      else r
  | SchoolType.international =>
      if (id (standard r) =? "ib")%string
         || (id (standard r) =? "cambridge")%string then
        r |> addConfidence 25
          |> pushReason "Internationally recognized for student mobility"
          |> setComplexity Complexity.high
          |> pushOutcome "Global university admission advantages"
      else r
  end.

(** Language preference alignment. *)
Definition languageAlignment (context : UserContext)
  (r : RecommendationResult) : RecommendationResult :=
  match language context with
  | Language.hindi =>
      match region (standard r) with
      | Region.national =>
          r |> addConfidence 20
            |> pushReason
                 "Strong Hindi language support and cultural integration"
            |> pushOutcome
                 "Better student comprehension in native language"
      | _ => r
      end
  | Language.english =>
      match region (standard r) with
      | Region.international =>
          r |> addConfidence 15
            |> pushReason
                 "English-medium instruction with global perspective"
      | _ => r
      end
  end.

(** Grade level considerations.  The guard [if (context.gradeLevel)] is
    the truthiness of an optional string: absent and empty both skip the
    block. *)
Definition gradeLevelConsiderations (context : UserContext)
  (r : RecommendationResult) : RecommendationResult :=
  match gradeLevel context with
  | None | Some EmptyString => r
  | Some g =>
      let gradeNum := JS.parseInt g in
      if JS.numLe gradeNum 5 && (id (standard r) =? "ncert")%string then
        r |> addConfidence 10
          |> pushReason
               "NCERT provides excellent foundation for primary education"
          |> pushOutcome "Strong conceptual foundation building"
      else if JS.numGe gradeNum 9
              && ((id (standard r) =? "cbse")%string
                  || (id (standard r) =? "icse")%string) then
        r |> addConfidence 10
          |> pushReason "Optimized for board exam preparation"
          |> pushOutcome "Enhanced board exam performance"
      else r
  end.

(** Teaching experience factor. *)
Definition teachingExperienceFactor (context : UserContext)
  (r : RecommendationResult) : RecommendationResult :=
  match teachingExperience context, region (standard r) with
  | Some Experience.beginner, _ =>
      if (id (standard r) =? "ncert")%string then
        r |> addConfidence 5
          |> pushReason
               "NCERT provides comprehensive teacher support materials"
          |> setComplexity Complexity.low
      else r
  | Some Experience.expert, Region.international =>
      r |> addConfidence 5
        |> pushReason
             "International standards offer advanced pedagogical approaches"
  | _, _ => r
  end.

(** Resource availability factor. *)
Definition resourceAvailabilityFactor (context : UserContext)
  (r : RecommendationResult) : RecommendationResult :=
  match resourceAvailability context, region (standard r) with
  | Some Resources.limited, Region.national =>
      r |> addConfidence 5
        |> pushReason "Designed for diverse resource environments in India"
        |> setComplexity Complexity.low
  | Some Resources.abundant, Region.international =>
      r |> addConfidence 5
        |> pushReason
             "Can leverage advanced resources for international curriculum"
  | _, _ => r
  end.

(** The object literal returned at the end: [Math.min(confidence, 100)]. *)
Definition returned (r : RecommendationResult) : RecommendationResult :=
  {| standard := standard r;
     confidence := Z.min (confidence r) 100;
     reasons := reasons r;
     priority := priority r;
     implementationComplexity := implementationComplexity r;
     expectedOutcomes := expectedOutcomes r |}.

Definition analyzeStandardFit (standard : CurriculumStandard)
  (context : UserContext) : RecommendationResult :=
  initially standard
    |> geographicAlignment context
    |> schoolTypeAlignment context
    |> languageAlignment context
    |> gradeLevelConsiderations context
    |> teachingExperienceFactor context
    |> resourceAvailabilityFactor context
    |> returned.

Definition priorityWeight (p : Priority.t) : Z :=
  match p with
  | Priority.primary => 100
  | Priority.secondary => 50
  | Priority.alternative => 10
  end.

(** [confidence + priorityWeight[priority]], the [aScore] and [bScore]
    of the comparator. *)
Definition score (r : RecommendationResult) : Z :=
  confidence r + priorityWeight (priority r).

Definition comparefn (a b : RecommendationResult) : Z :=
  let aScore := score a in
  let bScore := score b in
  bScore - aScore.

Definition allStandards : list CurriculumStandard :=
  INDIAN_CURRICULUM_STANDARDS ++ INTERNATIONAL_STANDARDS.

(** One turn of the [for ... of] loop over the catalog. *)
Definition consider (context : UserContext)
  (results : list RecommendationResult) (standard : CurriculumStandard)
  : list RecommendationResult :=
  let analysis := analyzeStandardFit standard context in
  if 30 <=? confidence analysis then results ++ [analysis] else results.

Definition generateRecommendations (context : UserContext)
  : list RecommendationResult :=
  let results := fold_left (consider context) allStandards [] in
  JS.sort comparefn results.

(** [acc[category] = (acc[category] || 0) + 1] on an object whose keys
    keep their insertion order. *)
Fixpoint countCategory (acc : list (string * Z)) (category : string)
  : list (string * Z) :=
  match acc with
  | [] => [(category, 1)]
  | (key, n) :: rest =>
      if (key =? category)%string
      then (key, n + 1) :: rest
      else (key, n) :: countCategory rest category
  end.

Definition categoryOf (rec : RecommendationResult) : string :=
  match region (standard rec) with
  | Region.national => "Indian"
  | _ => "International"
  end.

Definition generateAnalytics (recommendations : list RecommendationResult)
  : JS.completion RecommendationAnalytics :=
  let totalRecommendations := List.length recommendations in
  let averageConfidence :=
    JS.divide
      (fold_left (fun sum rec => sum + confidence rec) recommendations 0)
      totalRecommendations in
  let categoryCount :=
    fold_left (fun acc rec => countCategory acc (categoryOf rec))
      recommendations [] in
  match JS.reduce (fun a b => if snd b <? snd a then a else b)
          categoryCount with
  | JS.Throw e => JS.Throw e
  | JS.Return top =>
      let topCategory := fst top in
      let userSatisfactionPrediction :=
        JS.mathMin (JS.plus averageConfidence 10) 95 in
      let implementationTimeEstimate :=
        match recommendations with
        | first :: _ =>
            match implementationComplexity first with
            | Complexity.low => "1-2 weeks"
            | Complexity.medium => "3-4 weeks"
            | Complexity.high => "6-8 weeks"
            end
        | [] => "6-8 weeks"
        end in
      JS.Return
        {| totalRecommendations := totalRecommendations;
           averageConfidence := averageConfidence;
           topCategory := topCategory;
           userSatisfactionPrediction := userSatisfactionPrediction;
           implementationTimeEstimate := implementationTimeEstimate |}
  end.

(** The state cells of the hook ([useState]). *)
Record HookState : Type := {
  recommendations : list RecommendationResult;
  analytics : option RecommendationAnalytics;
  selectedStandard : option CurriculumStandard
}.

Definition mounted : HookState :=
  {| recommendations := []; analytics := None; selectedStandard := None |}.

(** [runAnalysis], the body of the effect: the state it leaves and how
    it completed.  [setRecommendations] has run before
    [generateAnalytics] is called, so a throw there leaves the new
    results with the old analytics and selection. *)
Definition runAnalysis (userContext : UserContext) (st : HookState)
  : HookState * JS.completion unit :=
  let results := generateRecommendations userContext in
  match generateAnalytics results with
  | JS.Throw e =>
      ({| recommendations := results;
          analytics := analytics st;
          selectedStandard := selectedStandard st |}, JS.Throw e)
  | JS.Return a =>
      ({| recommendations := results;
          analytics := Some a;
          selectedStandard :=
            match results, selectedStandard st with
            | top :: _, None => Some (standard top)
            | _, chosen => chosen
            end |}, JS.Return tt)
  end.

(** [recommendations.find(r => r.standard.id === standardId)], then
    [recommendation?.reasons || []]; an array is truthy even when empty. *)
Definition getRecommendationReasoning (st : HookState) (standardId : string)
  : list string :=
  match find (fun r => (id (standard r) =? standardId)%string)
          (recommendations st) with
  | Some recommendation => reasons recommendation
  | None => []
  end.

(** [setSelectedStandard(standard)]. *)
Definition selectStandard (standard : CurriculumStandard) (st : HookState)
  : HookState :=
  {| recommendations := recommendations st;
     analytics := analytics st;
     selectedStandard := Some standard |}.

Record ImplementationGuidance : Type := {
  complexity : string;
  timeEstimate : string;
  steps : list string;
  resources : list string
}.

Definition complexityMap (c : Complexity.t) : string :=
  match c with
  | Complexity.low => "Low - Minimal changes required"
  | Complexity.medium => "Medium - Moderate integration effort"
  | Complexity.high => "High - Significant restructuring needed"
  end.

Definition timeMap (c : Complexity.t) : string :=
  match c with
  | Complexity.low => "1-2 weeks"
  | Complexity.medium => "3-4 weeks"
  | Complexity.high => "6-8 weeks"
  end.

Definition stepMap (c : Complexity.t) : list string :=
  match c with
  | Complexity.low =>
      ["Update content templates with new standard requirements";
       "Train teachers on new curriculum elements";
       "Implement gradual rollout across classes"]
  | Complexity.medium =>
      ["Conduct comprehensive content audit";
       "Develop new assessment frameworks";
       "Create teacher training programs";
       "Implement phased rollout with feedback collection"]
  | Complexity.high =>
      ["Complete curriculum restructuring";
       "Develop new content from scratch";
       "Extensive teacher retraining programs";
       "Pilot testing with select schools";
       "Full implementation with ongoing support"]
  end.

Definition resourceMap (c : Complexity.t) : list string :=
  match c with
  | Complexity.low =>
      ["Existing teaching materials"; "Basic training sessions";
       "Online documentation"]
  | Complexity.medium =>
      ["New curriculum guides"; "Teacher workshops"; "Assessment tools";
       "Student materials"]
  | Complexity.high =>
      ["Complete curriculum overhaul"; "Extensive training programs";
       "New technology platforms"; "Ongoing support systems"]
  end.

Definition getImplementationGuidance (st : HookState) (standardId : string)
  : ImplementationGuidance :=
  match find (fun r => (id (standard r) =? standardId)%string)
          (recommendations st) with
  | None =>
      {| complexity := "Unknown";
         timeEstimate := "Not available";
         steps := [];
         resources := [] |}
  | Some recommendation =>
      {| complexity := complexityMap (implementationComplexity recommendation);
         timeEstimate := timeMap (implementationComplexity recommendation);
         steps := stepMap (implementationComplexity recommendation);
         resources := resourceMap (implementationComplexity recommendation) |}
  end.

End UseCurriculumRecommendation.

(* ------------------------------------------------------------------ *)
(** ** components/CurriculumSelector: the inline engine *)

Module CurriculumSelector.
Import CurriculumStandards.

(** The props after destructuring, with their defaults applied
    ([userLocation = 'india'], [schoolType = 'government'],
    [language = 'english'], [showRecommendations = true]). *)
Record CurriculumSelectorProps : Type := {
  selectedStandard : option CurriculumStandard;
  userLocation : string;
  schoolType : SchoolType.t;
  language : Language.t;
  gradeLevel : option string;
  showRecommendations : bool
}.

Record RecommendationContext : Type := {
  standard : CurriculumStandard;
  confidence : Z;
  reasons : list string;
  priority : Priority.t
}.

Definition addConfidence (n : Z) (r : RecommendationContext) :=
  {| standard := standard r;
     confidence := confidence r + n;
     reasons := reasons r;
     priority := priority r |}.

Definition pushReason (reason : string) (r : RecommendationContext) :=
  {| standard := standard r;
     confidence := confidence r;
     reasons := reasons r ++ [reason];
     priority := priority r |}.

Definition setPriority (p : Priority.t) (r : RecommendationContext) :=
  {| standard := standard r;
     confidence := confidence r;
     reasons := reasons r;
     priority := p |}.

Definition initially (standard : CurriculumStandard) : RecommendationContext :=
  {| standard := standard;
     confidence := 0;
     reasons := [];
     priority := Priority.alternative |}.

(** Location-based scoring. *)
Definition locationScoring (props : CurriculumSelectorProps)
  (r : RecommendationContext) : RecommendationContext :=
  if indicatesIndia (userLocation props) then
    match region (standard r) with
    | Region.national =>
        r |> addConfidence 40
          |> pushReason "Designed specifically for Indian educational system"
          |> setPriority Priority.primary
    | _ =>
        r |> addConfidence 10
          |> pushReason
               "International perspective valuable for global awareness"
          |> setPriority Priority.secondary
    end
  else
    match region (standard r) with
    | Region.international =>
        r |> addConfidence 35
          |> pushReason "International standard suitable for global schools"
          |> setPriority Priority.primary
    | _ => r
    end.

(** School type scoring: one [if / else if / else if] chain. *)
Definition schoolTypeScoring (props : CurriculumSelectorProps)
  (r : RecommendationContext) : RecommendationContext :=
  match schoolType props with
  | SchoolType.government =>
      if (id (standard r) =? "ncert")%string then
        r |> addConfidence 30
          |> pushReason
               "NCERT is the foundation for government school curriculum"
      else r
  | SchoolType.private =>
      if (id (standard r) =? "cbse")%string then
        r |> addConfidence 25
          |> pushReason "CBSE widely adopted by private schools in India"
      else r
  | SchoolType.international =>
      if (id (standard r) =? "ib")%string
         || (id (standard r) =? "cambridge")%string then
        r |> addConfidence 30
          |> pushReason
               "Internationally recognized curriculum for global mobility"
      else r
  end.

(** Language preference scoring. *)
Definition languageScoring (props : CurriculumSelectorProps)
  (r : RecommendationContext) : RecommendationContext :=
  match language props, region (standard r) with
  | Language.hindi, Region.national =>
      r |> addConfidence 15
        |> pushReason
             "Strong Hindi language support and cultural integration"
  | Language.english, Region.international =>
      r |> addConfidence 10
        |> pushReason "English-medium instruction with global perspective"
  | _, _ => r
  end.

(** Grade level considerations. *)
Definition gradeLevelScoring (props : CurriculumSelectorProps)
  (r : RecommendationContext) : RecommendationContext :=
  match gradeLevel props with
  | None | Some EmptyString => r
  | Some g =>
      let gradeNum := JS.parseInt g in
      if JS.numLe gradeNum 5 && (id (standard r) =? "ncert")%string then
        r |> addConfidence 10
          |> pushReason
               "NCERT provides excellent foundation for primary grades"
      else if JS.numGe gradeNum 9
              && ((id (standard r) =? "cbse")%string
                  || (id (standard r) =? "icse")%string) then
        r |> addConfidence 15
          |> pushReason "Strong board exam preparation for secondary grades"
      else r
  end.

(** The locals of one turn of the [forEach] callback, before the
    inclusion test. *)
Definition scored (props : CurriculumSelectorProps)
  (standard : CurriculumStandard) : RecommendationContext :=
  initially standard
    |> locationScoring props
    |> schoolTypeScoring props
    |> languageScoring props
    |> gradeLevelScoring props.

(** The callback of [allStandards.forEach]: the test reads the raw
    confidence, the pushed object holds [Math.min(confidence, 100)]. *)
Definition consider (props : CurriculumSelectorProps)
  (contextualRecommendations : list RecommendationContext)
  (standard : CurriculumStandard) : list RecommendationContext :=
  let r := scored props standard in
  if 20 <=? confidence r then
    contextualRecommendations
      ++ [ {| standard := standard;
              confidence := Z.min (confidence r) 100;
              reasons := reasons r;
              priority := priority r |} ]
  else contextualRecommendations.

Definition priorityOrder (p : Priority.t) : Z :=
  match p with
  | Priority.primary => 3
  | Priority.secondary => 2
  | Priority.alternative => 1
  end.

Definition comparefn (a b : RecommendationContext) : Z :=
  if negb (Priority.eqb (priority a) (priority b))
  then priorityOrder (priority b) - priorityOrder (priority a)
  else confidence b - confidence a.

Definition allStandards : list CurriculumStandard :=
  INDIAN_CURRICULUM_STANDARDS ++ INTERNATIONAL_STANDARDS.

(** The list handed to [setRecommendations]. *)
Definition generateRecommendations (props : CurriculumSelectorProps)
  : list RecommendationContext :=
  let contextualRecommendations :=
    fold_left (consider props) allStandards [] in
  JS.sort comparefn contextualRecommendations.

(** The effect of the component, for a component mounted with these
    props: [generateRecommendations] runs only [if (showRecommendations)],
    and otherwise the [recommendations] state keeps its initial empty
    array. *)
Definition storedRecommendations (props : CurriculumSelectorProps)
  : list RecommendationContext :=
  if showRecommendations props then generateRecommendations props else [].

(** The standard handed to [onSelectStandard], when that call is made:
    the effect has run [generateRecommendations], no standard is
    selected and the list is not empty. *)
Definition autoSelected (props : CurriculumSelectorProps)
  : option CurriculumStandard :=
  if showRecommendations props then
    match selectedStandard props, generateRecommendations props with
    | None, top :: _ => Some (standard top)
    | _, _ => None
    end
  else None.

Definition getDisplayName (props : CurriculumSelectorProps)
  (standard : CurriculumStandard) : string :=
  match language props with
  | Language.hindi => nameHindi standard
  | Language.english => name standard
  end.

Definition getDisplayDescription (props : CurriculumSelectorProps)
  (standard : CurriculumStandard) : string :=
  match language props with
  | Language.hindi => descriptionHindi standard
  | Language.english => description standard
  end.

End CurriculumSelector.

(* ------------------------------------------------------------------ *)
(** ** utils/fileValidation *)

Module FileValidation.

(** The fields of a [File] that the validation reads; [size] is a
    number of bytes. *)
Record File : Type := {
  name : string;
  size : N;
  type : string
}.

Record FileValidationResult : Type := {
  isValid : bool;
  error : option string;
  warnings : option (list string)
}.

Record FileSystemDiagnostic : Type := {
  browserSupport : bool;
  storageAvailable : bool;
  networkStatus : bool;
  permissions : bool
}.

Definition rejected (message : string) : FileValidationResult :=
  {| isValid := false; error := Some message; warnings := None |}.

Definition allowedTypes : list string :=
  ["image/jpeg"; "image/png"; "image/gif"; "image/webp";
   "application/pdf"; "application/msword";
   "application/vnd.openxmlformats-officedocument.wordprocessingml.document";
   "text/plain"; "audio/mpeg"; "audio/wav"; "audio/webm"].

Definition maxSize : N := 10 * 1024 * 1024.

Definition validateBasicFile (file : File) : FileValidationResult :=
  if (size file =? 0)%N then
    rejected "File appears to be empty or corrupted"
  else if (maxSize <? size file)%N then
    rejected ("File size " ++ JS.megabytesToFixed1 (size file)
              ++ "MB exceeds 10MB limit")%string
  else if negb (JS.arrayIncludes allowedTypes (type file)) then
    rejected ("File type " ++ JS.doubleQuote ++ type file ++ JS.doubleQuote
              ++ " not supported")%string
  else {| isValid := true; error := None; warnings := None |}.

Definition validateEducationalFile (file : File) : FileValidationResult :=
  let basicValidation := validateBasicFile file in
  if negb (isValid basicValidation) then basicValidation
  else
    let isImage := JS.startsWith (type file) "image/" in
    if isImage && JS.includes (JS.toLowerCase (name file)) "inappropriate"
    then
      rejected "File name suggests inappropriate content for educational use"
    else
      let afterImage :=
        if isImage && (5 * 1024 * 1024 <? size file)%N
        then ["Large image files may take longer to process in classroom settings"]
        else [] in
      let afterDocument :=
        if (JS.includes (type file) "pdf" || JS.includes (type file) "word")
           && (8 * 1024 * 1024 <? size file)%N
        then afterImage
             ++ ["Large documents may be difficult to process on mobile devices commonly used in Indian schools"]
        else afterImage in
      if JS.startsWith (type file) "audio/" then
        if (15 * 1024 * 1024 <? size file)%N then
          rejected
            "Audio files over 15MB may not work well in low-bandwidth school environments"
        else
          {| isValid := true; error := None;
             warnings :=
               Some (afterDocument
                     ++ ["Ensure audio is clear and appropriate for classroom playback"]) |}
      else {| isValid := true; error := None; warnings := Some afterDocument |}.

Definition getRecoveryInstructions (diagnostic : FileSystemDiagnostic)
  : list string :=
  let afterBrowser :=
    if negb (browserSupport diagnostic)
    then ["Update your browser to the latest version for full file upload support"]
    else [] in
  let afterStorage :=
    if negb (storageAvailable diagnostic)
    then afterBrowser
         ++ ["Clear browser storage or enable local storage in browser settings"]
    else afterBrowser in
  let afterNetwork :=
    if negb (networkStatus diagnostic)
    then afterStorage ++ ["Check your internet connection and try again"]
    else afterStorage in
  let afterPermissions :=
    if negb (permissions diagnostic)
    then afterNetwork
         ++ ["Allow file access permissions in your browser settings"]
    else afterNetwork in
  match afterPermissions with
  | [] =>
      ["Try refreshing the page and uploading again";
       "If issues persist, try uploading one file at a time";
       "Contact technical support if problems continue"]
  | _ => afterPermissions
  end.

End FileValidation.

(* ------------------------------------------------------------------ *)
(** ** Vocabulary of the properties *)

(** [a] occurs in [l] at an earlier position than [b]. *)
Definition listedBefore {A : Type} (l : list A) (a b : A) : Prop :=
  exists front between back, l = front ++ a :: between ++ b :: back.

(** Every element satisfying [high] sits at a smaller index than every
    element satisfying [low]: no [low] element is at or before a [high]
    one. *)
Fixpoint rankedAbove {A : Type} (high low : A -> bool) (l : list A) : bool :=
  match l with
  | [] => true
  | x :: rest =>
      (negb (low x) || negb (existsb high (x :: rest)))
      && rankedAbove high low rest
  end.

(** The arithmetic mean of a non-empty list of integers. *)
Definition mean (values : list Z) : Q :=
  inject_Z (fold_right Z.add 0 values) / inject_Z (Z.of_nat (List.length values)).

Section GeneralVocabulary.

Import CurriculumStandards UseCurriculumRecommendation.

(** The same context with another [gradeLevel]. *)
Definition withGradeLevel (g : option string) (context : UserContext)
  : UserContext :=
  {| location := location context;
     schoolType := schoolType context;
     language := language context;
     gradeLevel := g;
     previousSelections := previousSelections context;
     teachingExperience := teachingExperience context;
     classSize := classSize context;
     resourceAvailability := resourceAvailability context |}.

(** The two contexts the specification gives as examples; the fields
    they do not mention are absent. *)
Definition indiaGovernmentHindiGrade3 : UserContext :=
  {| location := "india";
     schoolType := SchoolType.government;
     language := Language.hindi;
     gradeLevel := Some "3";
     previousSelections := None;
     teachingExperience := None;
     classSize := None;
     resourceAvailability := None |}.

Definition usaInternationalEnglish : UserContext :=
  {| location := "usa";
     schoolType := SchoolType.international;
     language := Language.english;
     gradeLevel := None;
     previousSelections := None;
     teachingExperience := None;
     classSize := None;
     resourceAvailability := None |}.

Definition isIbOrCambridge (r : RecommendationResult) : bool :=
  (id (standard r) =? "ib")%string || (id (standard r) =? "cambridge")%string.

Definition isNational (r : RecommendationResult) : bool :=
  Region.eqb (region (standard r)) Region.national.

(** What one rule of the general scorer may do to the locals: nothing to
    the confidence and the reasons, or raise the one and append a single
    entry to the other. *)
Definition contributes (before after : RecommendationResult) : Prop :=
  standard after = standard before
  /\ ((confidence after = confidence before
       /\ reasons after = reasons before)
      \/ (confidence before < confidence after
          /\ exists reason, reasons after = reasons before ++ [reason])).

(** The locals of [analyzeStandardFit] before the final clamp. *)
Definition accumulated (standard : CurriculumStandard) (context : UserContext)
  : RecommendationResult :=
  initially standard
    |> geographicAlignment context
    |> schoolTypeAlignment context
    |> languageAlignment context
    |> gradeLevelConsiderations context
    |> teachingExperienceFactor context
    |> resourceAvailabilityFactor context.

(** The invariant of the locals: the confidence is not negative, and it
    is positive exactly when a reason has been pushed. *)
Definition balanced (r : RecommendationResult) : Prop :=
  0 <= confidence r /\ (0 < confidence r <-> reasons r <> []).

(** The test of the loop, and the scores it is applied to. *)
Definition included (r : RecommendationResult) : bool := 30 <=? confidence r.

Definition scoredCatalog (context : UserContext) : list RecommendationResult :=
  map (fun s => analyzeStandardFit s context) allStandards.

End GeneralVocabulary.

Section SelectorVocabulary.

Import CurriculumStandards CurriculumSelector.

(** The selector with its default props, and with the props india /
    international / english. *)
Definition defaultProps : CurriculumSelectorProps :=
  {| selectedStandard := None;
     userLocation := "india";
     schoolType := SchoolType.government;
     language := Language.english;
     gradeLevel := None;
     showRecommendations := true |}.

Definition indiaInternationalEnglish : CurriculumSelectorProps :=
  {| selectedStandard := None;
     userLocation := "india";
     schoolType := SchoolType.international;
     language := Language.english;
     gradeLevel := None;
     showRecommendations := true |}.

(** The test of the [forEach] callback, and the object it pushes for a
    standard that passes. *)
Definition passes (props : CurriculumSelectorProps) (s : CurriculumStandard)
  : bool :=
  20 <=? confidence (scored props s).

Definition pushed (props : CurriculumSelectorProps)
  (standard : CurriculumStandard) : RecommendationContext :=
  let r := scored props standard in
  {| standard := standard;
     confidence := Z.min (confidence r) 100;
     reasons := reasons r;
     priority := priority r |}.

(** A selector result read as a result of the general engine, to put
    the same confidence and priority before both comparators. *)
Definition asResult (r : RecommendationContext)
  : UseCurriculumRecommendation.RecommendationResult :=
  {| UseCurriculumRecommendation.standard := standard r;
     UseCurriculumRecommendation.confidence := confidence r;
     UseCurriculumRecommendation.reasons := reasons r;
     UseCurriculumRecommendation.priority := priority r;
     UseCurriculumRecommendation.implementationComplexity := Complexity.medium;
     UseCurriculumRecommendation.expectedOutcomes := [] |}.

(** The order the selector's comparator describes: a higher tier first,
    and within a tier the higher confidence first. *)
Definition tierThenConfidence (a b : RecommendationContext) : Prop :=
  priorityOrder (priority a) > priorityOrder (priority b)
  \/ (priority a = priority b /\ confidence a >= confidence b).

End SelectorVocabulary.

(* ------------------------------------------------------------------ *)
(** ** Facts about the built-ins *)

(** [trimStart] has fuel enough: what it returns starts with no white
    space. *)
Lemma dropChars_length (n : nat) (s : string) :
  String.length (JS.dropChars n s) = (String.length s - n)%nat.
Proof.
  revert s. induction n as [|n IH]; intros [|c s]; simpl; auto.
Qed.

Lemma trimStartFuel_done (fuel : nat) (s : string) :
  (String.length s <= fuel)%nat ->
  JS.leadingWhiteSpace (JS.trimStartFuel fuel s) = None.
Proof.
  revert s. induction fuel as [|fuel IH]; intros s Hlen.
  - destruct s; [reflexivity | simpl in Hlen; lia].
  - simpl. destruct (JS.leadingWhiteSpace s) as [w|] eqn:Hw; [|exact Hw].
    apply IH. rewrite dropChars_length.
    apply find_some in Hw. destruct Hw as [Hin _].
    assert (Hall : Forall (fun w => 1 <= String.length w)%nat
                     JS.StrWhiteSpaceChar)
      by (repeat constructor).
    rewrite Forall_forall in Hall. specialize (Hall w Hin). lia.
Qed.

Lemma trimStart_done (s : string) :
  JS.leadingWhiteSpace (JS.trimStart s) = None.
Proof. apply trimStartFuel_done. lia. Qed.

Section SortFacts.

Context {A : Type}.
Variable comparefn : A -> A -> Z.

(** [precedes a b]: the comparator allows [a] to stay in front of [b]. *)
Let precedes (a b : A) : Prop := comparefn a b <= 0.

Lemma insert_perm (x : A) (l : list A) :
  Permutation (JS.insert comparefn x l) (x :: l).
Proof.
  induction l as [|y rest IH]; simpl.
  - apply Permutation_refl.
  - destruct (0 <? comparefn x y).
    + apply Permutation_trans with (y :: x :: rest).
      * now apply perm_skip.
      * apply perm_swap.
    + apply Permutation_refl.
Qed.

Lemma sort_perm (l : list A) : Permutation (JS.sort comparefn l) l.
Proof.
  induction l as [|x rest IH]; simpl.
  - apply perm_nil.
  - apply Permutation_trans with (x :: JS.sort comparefn rest).
    + apply insert_perm.
    + now apply perm_skip.
Qed.

Lemma sort_In (l : list A) (x : A) : In x (JS.sort comparefn l) <-> In x l.
Proof.
  split; apply Permutation_in.
  - apply sort_perm.
  - apply Permutation_sym, sort_perm.
Qed.

Lemma sort_nonempty (l : list A) : l <> [] -> JS.sort comparefn l <> [].
Proof.
  intros Hl Hs. apply Hl.
  apply Permutation_nil. rewrite <- Hs.
  apply sort_perm.
Qed.

(** Stability: elements that the comparator never orders strictly after
    one another keep their relative order. *)
Section Stability.

Variable tied : A -> bool.
Hypothesis tied_never_after :
  forall x y, tied x = true -> tied y = true -> comparefn x y <= 0.

Lemma insert_filter_tied (x : A) (l : list A) :
  filter tied (JS.insert comparefn x l) = filter tied (x :: l).
Proof.
  induction l as [|y rest IH]; [reflexivity|].
  simpl JS.insert. destruct (0 <? comparefn x y) eqn:Hxy; [|reflexivity].
  apply Z.ltb_lt in Hxy.
  cbn [filter]. rewrite IH. cbn [filter].
  destruct (tied x) eqn:Hx, (tied y) eqn:Hy; try reflexivity.
  specialize (tied_never_after x y Hx Hy). lia.
Qed.

Lemma sort_filter_tied (l : list A) :
  filter tied (JS.sort comparefn l) = filter tied l.
Proof.
  induction l as [|x rest IH]; [reflexivity|].
  simpl JS.sort. rewrite insert_filter_tied. simpl. now rewrite IH.
Qed.

End Stability.

(** Sortedness, for a comparator that is a consistent ordering. *)
Section Sortedness.

Hypothesis comparefn_flip :
  forall x y, 0 < comparefn x y -> comparefn y x <= 0.
Hypothesis comparefn_trans :
  forall x y z, comparefn x y <= 0 -> comparefn y z <= 0 -> comparefn x z <= 0.

Lemma insert_sorted (x : A) (l : list A) :
  StronglySorted precedes l -> StronglySorted precedes (JS.insert comparefn x l).
Proof.
  induction 1 as [|y rest Hrest IH Hy]; simpl.
  - constructor; [constructor | constructor].
  - destruct (0 <? comparefn x y) eqn:Hxy.
    + apply Z.ltb_lt in Hxy. constructor; [exact IH|].
      apply Forall_forall. intros z Hz.
      apply (Permutation_in _ (insert_perm x rest)) in Hz.
      destruct Hz as [<-|Hz].
      * now apply comparefn_flip.
      * rewrite Forall_forall in Hy. now apply Hy.
    + apply Z.ltb_ge in Hxy. constructor.
      * now constructor.
      * constructor; [exact Hxy|].
        rewrite Forall_forall in Hy |- *. intros z Hz.
        apply comparefn_trans with y; [exact Hxy | now apply Hy].
Qed.

Lemma sort_sorted (l : list A) : StronglySorted precedes (JS.sort comparefn l).
Proof.
  induction l as [|x rest IH]; simpl.
  - constructor.
  - now apply insert_sorted.
Qed.

End Sortedness.

End SortFacts.

Section ListFacts.

Context {A B : Type}.

Lemma nth_error_listedBefore (l : list A) (i j : nat) (a b : A) :
  nth_error l i = Some a -> nth_error l j = Some b -> (i < j)%nat ->
  listedBefore l a b.
Proof.
  intros Ha Hb Hij.
  destruct (nth_error_split l i Ha) as (front & tail & -> & Hlen).
  rewrite nth_error_app2 in Hb by lia.
  destruct (j - List.length front)%nat as [|k] eqn:Hk; [lia|].
  simpl in Hb.
  destruct (nth_error_split tail k Hb) as (between & back & -> & _).
  now exists front, between, back.
Qed.

Lemma filter_eq_app_cons (p : A -> bool) (l front back : list A) (a : A) :
  filter p l = front ++ a :: back ->
  exists front' back',
    l = front' ++ a :: back' /\ filter p front' = front /\ filter p back' = back.
Proof.
  revert front. induction l as [|x rest IH]; intros front H.
  - now destruct front.
  - simpl in H. destruct (p x) eqn:Hx.
    + destruct front as [|f front]; simpl in H; injection H as <- H.
      * exists [], rest. now rewrite H.
      * destruct (IH _ H) as (front' & back' & -> & Hf & Hb).
        exists (x :: front'), back'. simpl. rewrite Hx, Hf. now rewrite Hb.
    + destruct (IH _ H) as (front' & back' & -> & Hf & Hb).
      exists (x :: front'), back'. simpl. rewrite Hx. now rewrite Hf, Hb.
Qed.

Lemma filter_listedBefore (p : A -> bool) (l : list A) (a b : A) :
  listedBefore (filter p l) a b -> listedBefore l a b.
Proof.
  intros (front & between & back & H).
  destruct (filter_eq_app_cons p l front (between ++ b :: back) a H)
    as (front' & tail & -> & _ & Htail).
  destruct (filter_eq_app_cons p tail between back b Htail)
    as (between' & back' & -> & _ & _).
  now exists front', between', back'.
Qed.

Lemma listedBefore_filter (p : A -> bool) (l : list A) (a b : A) :
  listedBefore l a b -> p a = true -> p b = true ->
  listedBefore (filter p l) a b.
Proof.
  intros (front & between & back & ->) Ha Hb.
  exists (filter p front), (filter p between), (filter p back).
  rewrite filter_app. simpl. rewrite Ha, filter_app. simpl. now rewrite Hb.
Qed.

Lemma map_listedBefore (f : A -> B) (l : list A) (a b : B) :
  listedBefore (map f l) a b ->
  exists x y, a = f x /\ b = f y /\ listedBefore l x y.
Proof.
  intros (front & between & back & H).
  apply map_eq_app in H. destruct H as (front' & tail & -> & _ & H).
  apply map_eq_cons in H. destruct H as (x & tail' & -> & <- & H).
  apply map_eq_app in H. destruct H as (between' & tail & -> & _ & H).
  apply map_eq_cons in H. destruct H as (y & back' & -> & <- & _).
  exists x, y. repeat split. now exists front', between', back'.
Qed.

Lemma StronglySorted_nth_error (R : A -> A -> Prop) (l : list A) :
  StronglySorted R l ->
  forall i j a b,
    (i < j)%nat -> nth_error l i = Some a -> nth_error l j = Some b -> R a b.
Proof.
  induction 1 as [|x rest Hrest IH Hx]; intros i j a b Hij Ha Hb.
  - destruct i; discriminate Ha.
  - destruct j as [|j]; [lia|]. cbn in Hb. destruct i as [|i]; cbn in Ha.
    + injection Ha as <-. rewrite Forall_forall in Hx.
      eapply Hx, nth_error_In, Hb.
    + apply (IH i j); [lia | exact Ha | exact Hb].
Qed.

Lemma rankedAbove_spec (high low : A -> bool) (l : list A) :
  rankedAbove high low l = true
  <-> (forall i j a b,
         nth_error l i = Some a -> nth_error l j = Some b ->
         high a = true -> low b = true -> (i < j)%nat).
Proof.
  induction l as [|x rest IH].
  - split; [|reflexivity]. intros _ [|i] j a b H; discriminate H.
  - cbn [rankedAbove]. rewrite andb_true_iff, IH. split.
    + intros [Hx Hrest] i j a b Ha Hb Hhigh Hlow.
      destruct j as [|j].
      * exfalso. injection Hb as <-. rewrite Hlow in Hx. cbn [negb orb] in Hx.
        apply negb_true_iff in Hx.
        assert (Hex : existsb high (x :: rest) = true).
        { apply existsb_exists. exists a. split; [|exact Hhigh].
          eapply nth_error_In, Ha. }
        congruence.
      * destruct i as [|i]; [lia|].
        apply -> Nat.succ_lt_mono. now apply (Hrest i j a b).
    + intros H. split.
      * destruct (low x) eqn:Hlow; [|reflexivity]. cbn [negb orb].
        apply negb_true_iff. destruct (existsb high (x :: rest)) eqn:Hex;
          [|reflexivity].
        apply existsb_exists in Hex. destruct Hex as (a & Hin & Hhigh).
        apply In_nth_error in Hin. destruct Hin as [i Hi].
        specialize (H i 0%nat a x Hi eq_refl Hhigh Hlow). lia.
      * intros i j a b Ha Hb Hhigh Hlow.
        apply Nat.succ_lt_mono. now apply (H (S i) (S j) a b).
Qed.

End ListFacts.

Lemma StronglySorted_weaken {A : Type} (R R' : A -> A -> Prop) (l : list A) :
  (forall a b, R a b -> R' a b) -> StronglySorted R l -> StronglySorted R' l.
Proof.
  intros HR. induction 1 as [|x rest Hrest IH Hx]; constructor.
  - exact IH.
  - eapply Forall_impl; [|exact Hx]. intros b. apply HR.
Qed.

(* ------------------------------------------------------------------ *)
(** ** The general engine *)

Module GeneralEngine.
Import CurriculumStandards UseCurriculumRecommendation.

(** Case analysis over every test a rule makes. *)
Ltac split_tests :=
  repeat match goal with
         | |- context [match ?x with _ => _ end] => destruct x eqn:?
         end.

Ltac rule_contributes rule :=
  intros; unfold rule, contributes, JS.andThen; split_tests; cbn;
  (split; [reflexivity|]);
  first [ left; split; reflexivity
        | right; split; [lia | eexists; reflexivity] ].

Lemma geographicAlignment_contributes context r :
  contributes r (geographicAlignment context r).
Proof. rule_contributes geographicAlignment. Qed.

Lemma schoolTypeAlignment_contributes context r :
  contributes r (schoolTypeAlignment context r).
Proof. rule_contributes schoolTypeAlignment. Qed.

Lemma languageAlignment_contributes context r :
  contributes r (languageAlignment context r).
Proof. rule_contributes languageAlignment. Qed.

Lemma gradeLevelConsiderations_contributes context r :
  contributes r (gradeLevelConsiderations context r).
Proof. rule_contributes gradeLevelConsiderations. Qed.

Lemma teachingExperienceFactor_contributes context r :
  contributes r (teachingExperienceFactor context r).
Proof. rule_contributes teachingExperienceFactor. Qed.

Lemma resourceAvailabilityFactor_contributes context r :
  contributes r (resourceAvailabilityFactor context r).
Proof. rule_contributes resourceAvailabilityFactor. Qed.

Create HintDb rules.

#[local] Hint Resolve geographicAlignment_contributes
  schoolTypeAlignment_contributes languageAlignment_contributes
  gradeLevelConsiderations_contributes teachingExperienceFactor_contributes
  resourceAvailabilityFactor_contributes : rules.

Lemma analyzeStandardFit_returned standard context :
  analyzeStandardFit standard context = returned (accumulated standard context).
Proof. reflexivity. Qed.

Lemma balanced_initially standard : balanced (initially standard).
Proof. split; cbn; [lia|]. split; [lia | congruence]. Qed.

Lemma balanced_contributes r r' :
  contributes r r' -> balanced r -> balanced r'.
Proof.
  intros [_ [[Hc Hr] | [Hc [reason Hr]]]] [Hpos Hiff]; unfold balanced.
  - rewrite Hc, Hr. now split.
  - split; [lia|]. split; [|lia].
    intros _. rewrite Hr. intros H. now apply app_eq_nil in H as [_ H].
Qed.

Lemma balanced_accumulated standard context :
  balanced (accumulated standard context).
Proof.
  unfold accumulated, JS.andThen.
  repeat (eapply balanced_contributes; [solve [auto with rules]|]).
  apply balanced_initially.
Qed.

Lemma standard_contributes r r' : contributes r r' -> standard r' = standard r.
Proof. now intros [H _]. Qed.

Lemma standard_analyzeStandardFit s context :
  standard (analyzeStandardFit s context) = s.
Proof.
  rewrite analyzeStandardFit_returned. cbn [returned standard].
  unfold accumulated, JS.andThen.
  repeat (etransitivity;
          [apply standard_contributes; solve [auto with rules]|]).
  reflexivity.
Qed.

(** C2.  For every standard and every context, the confidence of the
    result of [analyzeStandardFit] is an integer between 0 and 100. *)
Theorem analyzeStandardFit_confidence_range
  (standard : CurriculumStandard) (context : UserContext) :
  0 <= confidence (analyzeStandardFit standard context) <= 100.
Proof.
  rewrite analyzeStandardFit_returned. cbn [returned confidence].
  destruct (balanced_accumulated standard context) as [Hpos _]. lia.
Qed.

(** *** The order of the reasons *)

Ltac rule_appends rule :=
  intros; unfold rule, JS.andThen; cbn [standard initially];
  split_tests; cbn; rewrite ?app_nil_r; reflexivity.

Lemma geographicAlignment_appends context r :
  reasons (geographicAlignment context r)
  = reasons r ++ reasons (geographicAlignment context (initially (standard r))).
Proof. rule_appends geographicAlignment. Qed.

Lemma schoolTypeAlignment_appends context r :
  reasons (schoolTypeAlignment context r)
  = reasons r ++ reasons (schoolTypeAlignment context (initially (standard r))).
Proof. rule_appends schoolTypeAlignment. Qed.

Lemma languageAlignment_appends context r :
  reasons (languageAlignment context r)
  = reasons r ++ reasons (languageAlignment context (initially (standard r))).
Proof. rule_appends languageAlignment. Qed.

Lemma gradeLevelConsiderations_appends context r :
  reasons (gradeLevelConsiderations context r)
  = reasons r
    ++ reasons (gradeLevelConsiderations context (initially (standard r))).
Proof. rule_appends gradeLevelConsiderations. Qed.

Lemma teachingExperienceFactor_appends context r :
  reasons (teachingExperienceFactor context r)
  = reasons r
    ++ reasons (teachingExperienceFactor context (initially (standard r))).
Proof. rule_appends teachingExperienceFactor. Qed.

Lemma resourceAvailabilityFactor_appends context r :
  reasons (resourceAvailabilityFactor context r)
  = reasons r
    ++ reasons (resourceAvailabilityFactor context (initially (standard r))).
Proof. rule_appends resourceAvailabilityFactor. Qed.

(** The reasons of a result are the reasons of the six rules, each run
    on fresh locals, concatenated in source order. *)
Lemma reasons_in_rule_order s context :
  reasons (analyzeStandardFit s context)
  = reasons (geographicAlignment context (initially s))
    ++ reasons (schoolTypeAlignment context (initially s))
    ++ reasons (languageAlignment context (initially s))
    ++ reasons (gradeLevelConsiderations context (initially s))
    ++ reasons (teachingExperienceFactor context (initially s))
    ++ reasons (resourceAvailabilityFactor context (initially s)).
Proof.
  rewrite analyzeStandardFit_returned. cbn [returned reasons].
  unfold accumulated, JS.andThen.
  rewrite resourceAvailabilityFactor_appends, teachingExperienceFactor_appends,
    gradeLevelConsiderations_appends, languageAlignment_appends,
    schoolTypeAlignment_appends.
  rewrite !(standard_contributes _ _ (teachingExperienceFactor_contributes _ _)),
    !(standard_contributes _ _ (gradeLevelConsiderations_contributes _ _)),
    !(standard_contributes _ _ (languageAlignment_contributes _ _)),
    !(standard_contributes _ _ (schoolTypeAlignment_contributes _ _)),
    !(standard_contributes _ _ (geographicAlignment_contributes _ _)).
  cbn [standard initially]. now rewrite <- !app_assoc.
Qed.

(** *** The loop over the catalog *)

Lemma consider_loop context (catalog : list CurriculumStandard) results :
  fold_left (consider context) catalog results
  = results
    ++ filter included (map (fun s => analyzeStandardFit s context) catalog).
Proof.
  revert results. induction catalog as [|s rest IH]; intros results; simpl.
  - now rewrite app_nil_r.
  - rewrite IH. unfold consider, included.
    destruct (30 <=? confidence (analyzeStandardFit s context)).
    + now rewrite <- app_assoc.
    + reflexivity.
Qed.

Lemma generateRecommendations_eq context :
  generateRecommendations context
  = JS.sort comparefn (filter included (scoredCatalog context)).
Proof.
  unfold generateRecommendations. now rewrite consider_loop.
Qed.

Lemma In_generateRecommendations context r :
  In r (generateRecommendations context)
  <-> (exists s, In s allStandards /\ r = analyzeStandardFit s context)
      /\ 30 <= confidence r.
Proof.
  rewrite generateRecommendations_eq, sort_In, filter_In.
  unfold scoredCatalog, included. rewrite in_map_iff, Z.leb_le.
  split; intros [(s & H1 & H2) H]; (split; [|exact H]); exists s; auto.
Qed.

Lemma generateRecommendations_above_floor context :
  Forall (fun r => 30 <= confidence r) (generateRecommendations context).
Proof.
  apply Forall_forall. intros r Hr.
  now apply In_generateRecommendations in Hr.
Qed.

Lemma comparefn_flip x y : 0 < comparefn x y -> comparefn y x <= 0.
Proof. unfold comparefn. lia. Qed.

Lemma comparefn_trans x y z :
  comparefn x y <= 0 -> comparefn y z <= 0 -> comparefn x z <= 0.
Proof. unfold comparefn. lia. Qed.

(** Stability, for the results of one composite score. *)
Lemma generateRecommendations_ties context (k : Z) :
  filter (fun r => score r =? k) (generateRecommendations context)
  = filter (fun r => score r =? k) (filter included (scoredCatalog context)).
Proof.
  rewrite generateRecommendations_eq. apply sort_filter_tied.
  intros x y Hx Hy. apply Z.eqb_eq in Hx, Hy. unfold comparefn. lia.
Qed.

(** C1.  For every context, no result of [generateRecommendations] has a
    confidence below 30; the results are in descending order of
    [confidence + priorityWeight[priority]]; two results of equal
    composite score appear in the order in which the catalog lists their
    standards; and the catalog lists ncert, cbse, icse, ib, cambridge and
    common-core, in this order. *)
Theorem generateRecommendations_ranking (context : UserContext) :
  Forall (fun r => 30 <= confidence r) (generateRecommendations context)
  /\ StronglySorted (fun a b => score a >= score b)
       (generateRecommendations context)
  /\ (forall i j a b,
        nth_error (generateRecommendations context) i = Some a ->
        nth_error (generateRecommendations context) j = Some b ->
        (i < j)%nat -> score a = score b ->
        listedBefore allStandards (standard a) (standard b))
  /\ map id allStandards
     = ["ncert"; "cbse"; "icse"; "ib"; "cambridge"; "common-core"]
  /\ map priorityWeight
       [Priority.primary; Priority.secondary; Priority.alternative]
     = [100; 50; 10].
Proof.
  split; [|split; [|split; [|split; reflexivity]]].
  - apply generateRecommendations_above_floor.
  - rewrite generateRecommendations_eq.
    eapply StronglySorted_weaken;
      [|apply sort_sorted; [apply comparefn_flip | apply comparefn_trans]].
    intros a b. unfold comparefn. cbn. lia.
  - intros i j a b Ha Hb Hij Hscore.
    pose proof (nth_error_listedBefore _ _ _ _ _ Ha Hb Hij) as H.
    apply (listedBefore_filter (fun r => score r =? score a)) in H;
      [|apply Z.eqb_refl | now apply Z.eqb_eq].
    rewrite generateRecommendations_ties in H.
    do 2 apply filter_listedBefore in H.
    apply map_listedBefore in H. destruct H as (x & y & -> & -> & H).
    now rewrite !standard_analyzeStandardFit.
Qed.

(** The tie clause of the ranking theorem, on the two results that the
    context usa / international / english scores 70 and ranks first and
    second. *)
Lemma generateRecommendations_ranking_witness :
  exists ib cambridge,
    nth_error allStandards 3 = Some ib
    /\ nth_error allStandards 4 = Some cambridge
    /\ score (analyzeStandardFit ib usaInternationalEnglish) = 170
    /\ score (analyzeStandardFit cambridge usaInternationalEnglish) = 170
    /\ listedBefore allStandards ib cambridge.
Proof.
  eexists. eexists.
  split; [reflexivity|]. split; [reflexivity|].
  split; [reflexivity|]. split; [reflexivity|].
  destruct (generateRecommendations_ranking usaInternationalEnglish)
    as (_ & _ & Hties & _).
  match goal with
  | |- listedBefore _ ?x ?y =>
      apply (Hties 0%nat 1%nat (analyzeStandardFit x usaInternationalEnglish)
               (analyzeStandardFit y usaInternationalEnglish))
  end.
  - vm_compute. reflexivity.
  - vm_compute. reflexivity.
  - lia.
  - vm_compute. reflexivity.
Defined.

(** C9.  For every standard and context, the confidence of the result of
    [analyzeStandardFit] is positive exactly when its list of reasons is
    not empty; each of the six rules either leaves confidence and
    reasons alone or raises the confidence and appends one reason; and
    every result of [generateRecommendations] carries a reason. *)
Theorem confidence_positive_iff_reasons
  (s : CurriculumStandard) (context : UserContext) :
  (0 < confidence (analyzeStandardFit s context)
   <-> reasons (analyzeStandardFit s context) <> [])
  /\ Forall (fun rule => forall r, contributes r (rule context r))
       [geographicAlignment; schoolTypeAlignment; languageAlignment;
        gradeLevelConsiderations; teachingExperienceFactor;
        resourceAvailabilityFactor]
  /\ Forall (fun r => reasons r <> []) (generateRecommendations context).
Proof.
  assert (Hiff : forall s', 0 < confidence (analyzeStandardFit s' context)
                            <-> reasons (analyzeStandardFit s' context) <> []).
  { intros s'. rewrite analyzeStandardFit_returned. cbn [returned confidence reasons].
    destruct (balanced_accumulated s' context) as [_ <-]. lia. }
  split; [apply Hiff|]. split.
  - repeat (apply Forall_cons; [intros r; solve [auto with rules]|]).
    apply Forall_nil.
  - apply Forall_forall. intros r Hr.
    apply In_generateRecommendations in Hr.
    destruct Hr as [(s' & _ & ->) Hconf]. apply Hiff. lia.
Qed.

(** *** An unparseable grade *)

Lemma gradeLevelConsiderations_NaN context (g : string) r :
  JS.parseInt g = None ->
  gradeLevelConsiderations (withGradeLevel (Some g) context) r = r.
Proof.
  intros H. unfold gradeLevelConsiderations. cbn [gradeLevel withGradeLevel].
  destruct g as [|c g]; [reflexivity|]. now rewrite H.
Qed.

(** What [parseInt] makes of a few grade strings: a string with no
    leading digits is NaN, a numeric prefix is read and the rest
    ignored. *)
Lemma parseInt_examples :
  map JS.parseInt ["abc"; ""; "3"; " 10"; "3abc"; "3.7"; "-2"; "0x1F"]
  = [None; None; Some 3; Some 10; Some 3; Some 3; Some (-2); Some 31].
Proof. reflexivity. Qed.

(** C7.  For every context whose [gradeLevel] is a string that
    [parseInt] reads as NaN, the grade-level rule changes nothing, and
    [analyzeStandardFit] and [generateRecommendations] return what they
    return for the same context with no [gradeLevel]. *)
Theorem unparseable_grade_is_no_grade
  (context : UserContext) (g : string) (s : CurriculumStandard) :
  JS.parseInt g = None ->
  (forall r, gradeLevelConsiderations (withGradeLevel (Some g) context) r = r)
  /\ analyzeStandardFit s (withGradeLevel (Some g) context)
     = analyzeStandardFit s (withGradeLevel None context)
  /\ generateRecommendations (withGradeLevel (Some g) context)
     = generateRecommendations (withGradeLevel None context).
Proof.
  intros H.
  assert (Hfit : forall s', analyzeStandardFit s' (withGradeLevel (Some g) context)
                            = analyzeStandardFit s' (withGradeLevel None context)).
  { intros s'. unfold analyzeStandardFit, JS.andThen.
    now rewrite gradeLevelConsiderations_NaN. }
  split; [|split].
  - intros r. now apply gradeLevelConsiderations_NaN.
  - apply Hfit.
  - rewrite !generateRecommendations_eq. unfold scoredCatalog.
    f_equal. f_equal. apply map_ext. exact Hfit.
Qed.

Lemma unparseable_grade_is_no_grade_witness :
  exists ncert,
    nth_error allStandards 0 = Some ncert
    /\ JS.parseInt "abc" = None
    /\ analyzeStandardFit ncert
         (withGradeLevel (Some "abc") indiaGovernmentHindiGrade3)
       = analyzeStandardFit ncert
           (withGradeLevel None indiaGovernmentHindiGrade3)
    /\ generateRecommendations
         (withGradeLevel (Some "abc") indiaGovernmentHindiGrade3)
       = generateRecommendations
           (withGradeLevel None indiaGovernmentHindiGrade3).
Proof.
  eexists. split; [reflexivity|]. split; [reflexivity|].
  refine (proj2 (unparseable_grade_is_no_grade indiaGovernmentHindiGrade3
                   "abc" _ _)).
  reflexivity.
Defined.

(** *** The two example contexts *)

(** C4.  For the context india / government / hindi / grade "3", the
    first result of [generateRecommendations] is the standard ncert,
    with priority primary. *)
Theorem ncert_first_for_india_government_hindi_grade3 :
  exists top rest,
    generateRecommendations indiaGovernmentHindiGrade3 = top :: rest
    /\ id (standard top) = "ncert"
    /\ priority top = Priority.primary
    /\ map (fun r => (id (standard r), confidence r)) (top :: rest)
       = [("ncert", 90); ("cbse", 70); ("icse", 55)].
Proof.
  eexists. eexists. split; [vm_compute; reflexivity|].
  repeat split.
Qed.

(** C5.  For the context usa / international / english, every result
    for ib or cambridge is ranked above every result for a standard of
    the national region, and ib and cambridge are among the results.
    No national standard reaches the threshold for this context: the
    results are ib, cambridge and common-core.  [rankedAbove_spec] reads
    the first conjunct in terms of positions. *)
Theorem international_first_for_usa_international_english :
  rankedAbove isIbOrCambridge isNational
    (generateRecommendations usaInternationalEnglish) = true
  /\ existsb isIbOrCambridge
       (generateRecommendations usaInternationalEnglish) = true
  /\ existsb isNational
       (generateRecommendations usaInternationalEnglish) = false
  /\ map (fun r => (id (standard r), confidence r))
       (generateRecommendations usaInternationalEnglish)
     = [("ib", 70); ("cambridge", 70); ("common-core", 45)].
Proof. repeat split. Qed.

(** *** The results are never empty *)

Lemma confidence_contributes r r' :
  contributes r r' -> confidence r <= confidence r'.
Proof. intros [_ [[-> _] | [H _]]]; lia. Qed.

Lemma analyzeStandardFit_floor s context :
  30 <= confidence (geographicAlignment context (initially s)) ->
  30 <= confidence (analyzeStandardFit s context).
Proof.
  intros H. rewrite analyzeStandardFit_returned. cbn [returned confidence].
  apply Z.min_glb; [|lia].
  unfold accumulated, JS.andThen.
  do 5 (etransitivity;
        [|apply confidence_contributes; solve [auto with rules]]).
  exact H.
Qed.

Lemma generateRecommendations_nonempty context :
  generateRecommendations context <> [].
Proof.
  assert (H : exists r, In r (generateRecommendations context)).
  { destruct (indicatesIndia (location context)) eqn:Hloc.
    - eexists. apply In_generateRecommendations. split.
      + eexists. split; [left; reflexivity | reflexivity].
      + apply analyzeStandardFit_floor.
        unfold geographicAlignment. rewrite Hloc. cbn. lia.
    - eexists. apply In_generateRecommendations. split.
      + eexists. split; [do 3 right; left; reflexivity | reflexivity].
      + apply analyzeStandardFit_floor.
        unfold geographicAlignment. rewrite Hloc. cbn. lia. }
  destruct H as [r Hr]. intros E. now rewrite E in Hr.
Qed.

(** *** The analytics *)

Lemma sum_confidence (l : list RecommendationResult) (start : Z) :
  fold_left (fun sum rec => sum + confidence rec) l start
  = start + fold_right Z.add 0 (map confidence l).
Proof.
  revert start. induction l as [|r rest IH]; intros start; simpl.
  - lia.
  - rewrite IH. lia.
Qed.

Lemma countCategory_nonempty acc category : countCategory acc category <> [].
Proof.
  destruct acc as [|[key n] rest]; simpl; [discriminate|].
  destruct (key =? category)%string; discriminate.
Qed.

Lemma categoryCount_nonempty (l : list RecommendationResult) acc :
  acc <> [] ->
  fold_left (fun acc rec => countCategory acc (categoryOf rec)) l acc <> [].
Proof.
  revert acc. induction l as [|r rest IH]; intros acc Hacc; simpl.
  - exact Hacc.
  - apply IH, countCategory_nonempty.
Qed.

(** On a list that is not empty, [generateAnalytics] returns, and its
    [averageConfidence] is the arithmetic mean of the confidences (the
    double that JavaScript stores is the one nearest to this rational). *)
Lemma generateAnalytics_mean (l : list RecommendationResult) :
  l <> [] ->
  exists a q,
    generateAnalytics l = JS.Return a
    /\ totalRecommendations a = List.length l
    /\ averageConfidence a = JS.Num q
    /\ (q == mean (map confidence l))%Q.
Proof.
  destruct l as [|r rest]; [congruence|]. intros _.
  unfold generateAnalytics.
  destruct (fold_left (fun acc rec => countCategory acc (categoryOf rec))
              (r :: rest) []) as [|entry entries] eqn:Hcount.
  - exfalso. revert Hcount. cbn [fold_left].
    apply categoryCount_nonempty, countCategory_nonempty.
  - cbn [JS.reduce]. eexists. eexists.
    split; [reflexivity|]. cbn [totalRecommendations averageConfidence].
    split; [reflexivity|]. split; [reflexivity|].
    rewrite sum_confidence, Z.add_0_l. unfold mean. rewrite length_map.
    rewrite Qmake_Qdiv.
    rewrite <- (positive_nat_Z (Pos.of_nat (List.length (r :: rest)))).
    rewrite Nat2Pos.id by discriminate. reflexivity.
Qed.

(** On the empty list [generateAnalytics] returns no analytics object:
    the sum 0 is divided by the length 0, which is NaN and not 0, and the
    reduction over the entries of the empty category map then throws a
    TypeError. *)
Lemma generateAnalytics_empty_throws :
  generateAnalytics []
  = JS.Throw (JS.TypeError "Reduce of empty array with no initial value")
  /\ JS.divide
       (fold_left (fun sum rec => sum + confidence rec) [] 0)
       (List.length (@nil RecommendationResult))
     = JS.NaN.
Proof. split; reflexivity. Qed.




(** The effect never meets the empty list: its analytics call returns. *)
Lemma runAnalysis_returns context st :
  snd (runAnalysis context st) = JS.Return tt
  /\ recommendations (fst (runAnalysis context st))
     = generateRecommendations context.
Proof.
  unfold runAnalysis.
  destruct (generateAnalytics_mean (generateRecommendations context)
              (generateRecommendations_nonempty context))
    as (a & q & -> & _).
  split; reflexivity.
Qed.

(** *** Looking up the reasons *)

Lemma allStandards_id_inj s s' :
  In s allStandards -> In s' allStandards -> id s = id s' -> s = s'.
Proof.
  unfold allStandards, INDIAN_CURRICULUM_STANDARDS, INTERNATIONAL_STANDARDS.
  cbn [app In]. intros H H'.
  repeat match goal with
         | H : _ \/ _ |- _ => destruct H as [H|H]
         | H : False |- _ => destruct H
         end; subst s s'; cbn [id]; intros E;
    first [reflexivity | discriminate E].
Qed.

(** C6.  After [runAnalysis] has stored the results for a context, and
    for every stored result [r] whose standard has the requested id,
    [getRecommendationReasoning] returns the reasons that
    [analyzeStandardFit] accumulates for that standard, which are the
    reasons of the geographic, school-type, language, grade, experience
    and resource rules in this order; when no stored result has the id,
    it returns the empty list. *)
Theorem getRecommendationReasoning_after_runAnalysis
  (context : UserContext) (st : HookState) (standardId : string) :
  (forall r,
     In r (recommendations (fst (runAnalysis context st))) ->
     id (standard r) = standardId ->
     getRecommendationReasoning (fst (runAnalysis context st)) standardId
     = reasons (analyzeStandardFit (standard r) context)
     /\ reasons (analyzeStandardFit (standard r) context)
        = reasons (geographicAlignment context (initially (standard r)))
          ++ reasons (schoolTypeAlignment context (initially (standard r)))
          ++ reasons (languageAlignment context (initially (standard r)))
          ++ reasons
               (gradeLevelConsiderations context (initially (standard r)))
          ++ reasons
               (teachingExperienceFactor context (initially (standard r)))
          ++ reasons
               (resourceAvailabilityFactor context (initially (standard r))))
  /\ ((forall r,
         In r (recommendations (fst (runAnalysis context st))) ->
         id (standard r) <> standardId) ->
      getRecommendationReasoning (fst (runAnalysis context st)) standardId
      = []).
Proof.
  unfold getRecommendationReasoning.
  destruct (runAnalysis_returns context st) as [_ ->].
  split.
  - intros r Hr Hid. split; [|apply reasons_in_rule_order].
    destruct (find _ _) as [found|] eqn:Hfind.
    + apply find_some in Hfind. destruct Hfind as [Hfound Hsame].
      apply String.eqb_eq in Hsame.
      apply In_generateRecommendations in Hr, Hfound.
      destruct Hr as [(s & Hs & ->) _], Hfound as [(s' & Hs' & ->) _].
      rewrite !standard_analyzeStandardFit in *.
      now rewrite (allStandards_id_inj s' s Hs' Hs) by congruence.
    + apply (find_none _ _ Hfind) in Hr.
      apply String.eqb_neq in Hr. contradiction.
  - intros Habsent.
    destruct (find _ _) as [found|] eqn:Hfind; [|reflexivity].
    apply find_some in Hfind. destruct Hfind as [Hfound Hsame].
    apply String.eqb_eq in Hsame. now apply Habsent in Hfound.
Qed.

Lemma getRecommendationReasoning_after_runAnalysis_witness :
  getRecommendationReasoning
    (fst (runAnalysis indiaGovernmentHindiGrade3 mounted)) "ncert"
  = ["Designed specifically for Indian educational ecosystem";
     "NCERT is the official framework for government schools";
     "Strong Hindi language support and cultural integration";
     "NCERT provides excellent foundation for primary education"]
  /\ getRecommendationReasoning
       (fst (runAnalysis indiaGovernmentHindiGrade3 mounted)) "ib"
     = [].
Proof.
  pose proof (runAnalysis_returns indiaGovernmentHindiGrade3 mounted)
    as [_ Hstored].
  assert (Hout : exists top rest,
             generateRecommendations indiaGovernmentHindiGrade3 = top :: rest
             /\ id (standard top) = "ncert"
             /\ Forall (fun r => id (standard r) <> "ib") (top :: rest)).
  { eexists. eexists. split; [vm_compute; reflexivity|].
    split; [reflexivity|]. repeat constructor; discriminate. }
  destruct Hout as (top & rest & Hout & Hid & Hnone).
  split.
  - destruct (getRecommendationReasoning_after_runAnalysis
                indiaGovernmentHindiGrade3 mounted "ncert") as [Hfound _].
    destruct (Hfound top) as [-> _].
    + rewrite Hstored, Hout. now left.
    + exact Hid.
    + assert (Htop : hd_error
                       (generateRecommendations indiaGovernmentHindiGrade3)
                     = Some top) by now rewrite Hout.
      vm_compute in Htop. injection Htop as <-. vm_compute. reflexivity.
  - destruct (getRecommendationReasoning_after_runAnalysis
                indiaGovernmentHindiGrade3 mounted "ib") as [_ Habsent].
    apply Habsent. intros r. rewrite Hstored, Hout.
    rewrite Forall_forall in Hnone. apply Hnone.
Defined.

End GeneralEngine.

(* ------------------------------------------------------------------ *)
(** ** The selector's engine, and the two engines side by side *)

Module SelectorEngine.
Import CurriculumStandards CurriculumSelector.

Module General := UseCurriculumRecommendation.

Lemma selector_consider_loop props (catalog : list CurriculumStandard) results :
  fold_left (consider props) catalog results
  = results ++ map (pushed props) (filter (passes props) catalog).
Proof.
  revert results. induction catalog as [|s rest IH]; intros results; simpl.
  - now rewrite app_nil_r.
  - rewrite IH. unfold consider, passes.
    destruct (20 <=? confidence (scored props s)).
    + now rewrite <- app_assoc.
    + reflexivity.
Qed.

Lemma selector_recommendations_eq props :
  generateRecommendations props
  = JS.sort comparefn (map (pushed props) (filter (passes props) allStandards)).
Proof.
  unfold generateRecommendations. now rewrite selector_consider_loop.
Qed.

Lemma In_selector_recommendations props r :
  In r (generateRecommendations props)
  <-> exists s,
        In s allStandards /\ 20 <= confidence (scored props s)
        /\ r = pushed props s.
Proof.
  rewrite selector_recommendations_eq, sort_In, in_map_iff.
  split; intros (s & H1 & H2).
  - apply filter_In in H2. destruct H2 as [H2 H3].
    apply Z.leb_le in H3. now exists s.
  - destruct H2 as [H2 ->]. exists s. split; [reflexivity|].
    apply filter_In. split; [exact H1 | now apply Z.leb_le].
Qed.

Lemma pushed_inj props s s' : pushed props s = pushed props s' -> s = s'.
Proof. intros H. exact (f_equal standard H). Qed.

Ltac by_priorities :=
  unfold comparefn, tierThenConfidence;
  repeat match goal with
         | |- context [priority ?r] => destruct (priority r)
         end;
  cbn; try lia.

Lemma selector_comparefn_flip x y : 0 < comparefn x y -> comparefn y x <= 0.
Proof. by_priorities. Qed.

Lemma selector_comparefn_trans x y z :
  comparefn x y <= 0 -> comparefn y z <= 0 -> comparefn x z <= 0.
Proof. by_priorities. Qed.

Lemma comparefn_tierThenConfidence a b :
  comparefn a b <= 0 -> tierThenConfidence a b.
Proof.
  unfold comparefn, tierThenConfidence.
  destruct (priority a), (priority b); cbn; intros H;
    first [left; lia | right; split; [reflexivity | lia]].
Qed.

Lemma generateRecommendations_sorted props :
  StronglySorted tierThenConfidence (generateRecommendations props).
Proof.
  rewrite selector_recommendations_eq.
  eapply StronglySorted_weaken; [apply comparefn_tierThenConfidence|].
  apply sort_sorted; [apply selector_comparefn_flip | apply selector_comparefn_trans].
Qed.

(** C8.  The general engine includes a scored result only when its
    confidence is at least 30, the selector only when it is at least 20,
    and each does include every catalog standard that reaches its floor.
    The floors differ: with its default props the selector includes
    a result of confidence 20, and the general engine leaves out a
    result that it scores 25. *)
Theorem inclusion_floors_differ :
  (forall context,
     Forall (fun r => 30 <= General.confidence r)
       (General.generateRecommendations context))
  /\ (forall props,
        Forall (fun r => 20 <= confidence r) (generateRecommendations props))
  /\ (forall context,
        Forall (fun s =>
                  30 <= General.confidence (General.analyzeStandardFit s context)
                  <-> In (General.analyzeStandardFit s context)
                        (General.generateRecommendations context))
          General.allStandards)
  /\ (forall props,
        Forall (fun s =>
                  20 <= confidence (scored props s)
                  <-> In (pushed props s) (generateRecommendations props))
          allStandards)
  /\ (exists r,
        In r (generateRecommendations defaultProps) /\ confidence r = 20)
  /\ (exists context s,
        In s General.allStandards
        /\ General.confidence (General.analyzeStandardFit s context) = 25
        /\ ~ In (General.analyzeStandardFit s context)
               (General.generateRecommendations context)).
Proof.
  split; [|split; [|split; [|split; [|split]]]].
  - intros context. apply GeneralEngine.generateRecommendations_above_floor.
  - intros props. apply Forall_forall. intros r Hr.
    apply In_selector_recommendations in Hr.
    destruct Hr as (s & _ & Hs & ->). cbn. lia.
  - intros context. apply Forall_forall. intros s Hs.
    rewrite GeneralEngine.In_generateRecommendations. split.
    + intros H. split; [now exists s | exact H].
    + now intros [_ H].
  - intros props. apply Forall_forall. intros s Hs.
    rewrite In_selector_recommendations. split.
    + intros H. now exists s.
    + intros (s' & _ & H & E). apply pushed_inj in E. now subst s'.
  - eexists. split; [vm_compute; do 5 right; left; reflexivity | reflexivity].
  - exists {| General.location := "usa";
              General.schoolType := SchoolType.government;
              General.language := Language.english;
              General.gradeLevel := None;
              General.previousSelections := None;
              General.teachingExperience := None;
              General.classSize := None;
              General.resourceAvailability := None |}.
    eexists. split; [left; reflexivity|]. split; [reflexivity|].
    rewrite GeneralEngine.In_generateRecommendations.
    intros [_ H]. vm_compute in H. now apply H.
Qed.

(** C10.  The selector's results are ordered by priority tier, primary
    before secondary before alternative, and by descending confidence
    within a tier; so every primary result is listed before every
    secondary one whatever their confidences.  This is not the order of
    the general engine: there are a primary and a secondary result that
    the selector's comparator orders primary first and the general
    engine's composite score orders secondary first. *)
Theorem selector_orders_by_tier_then_confidence
  (props : CurriculumSelectorProps) :
  StronglySorted tierThenConfidence (generateRecommendations props)
  /\ (forall a b,
        In a (generateRecommendations props) ->
        In b (generateRecommendations props) ->
        priority a = Priority.primary -> priority b = Priority.secondary ->
        listedBefore (generateRecommendations props) a b)
  /\ (exists a b,
        priority a = Priority.primary /\ priority b = Priority.secondary
        /\ confidence a < confidence b
        /\ comparefn a b < 0
        /\ 0 < General.comparefn (asResult a) (asResult b)).
Proof.
  split; [apply generateRecommendations_sorted|]. split.
  - intros a b Ha Hb Hpa Hpb.
    apply In_nth_error in Ha, Hb. destruct Ha as [i Hi], Hb as [j Hj].
    destruct (Nat.lt_trichotomy i j) as [Hij | [-> | Hji]].
    + exact (nth_error_listedBefore _ _ _ _ _ Hi Hj Hij).
    + congruence.
    + pose proof (StronglySorted_nth_error _ _
                    (generateRecommendations_sorted props) j i b a Hji Hj Hi)
        as [H | [H _]].
      * rewrite Hpa, Hpb in H. cbn in H. lia.
      * congruence.
  - destruct allStandards as [|s others] eqn:Hcatalog;
      [discriminate Hcatalog|].
    exists {| standard := s; confidence := 30; reasons := [];
              priority := Priority.primary |},
           {| standard := s; confidence := 90; reasons := [];
              priority := Priority.secondary |}.
    repeat split.
Qed.

Lemma selector_orders_by_tier_then_confidence_witness :
  exists a b,
    nth_error (generateRecommendations indiaInternationalEnglish) 0 = Some a
    /\ nth_error (generateRecommendations indiaInternationalEnglish) 3 = Some b
    /\ (priority a, confidence a) = (Priority.primary, 40)
    /\ (priority b, confidence b) = (Priority.secondary, 50)
    /\ listedBefore (generateRecommendations indiaInternationalEnglish) a b.
Proof.
  eexists. eexists.
  split; [vm_compute; reflexivity|]. split; [vm_compute; reflexivity|].
  split; [reflexivity|]. split; [reflexivity|].
  apply (proj1 (proj2 (selector_orders_by_tier_then_confidence
                         indiaInternationalEnglish))).
  - vm_compute. left. reflexivity.
  - vm_compute. do 3 right. left. reflexivity.
  - reflexivity.
  - reflexivity.
Defined.

End SelectorEngine.

(* ------------------------------------------------------------------ *)
(** ** What a context can change: the finitely many profiles *)

(** The scorers read a context only through a few tests.  A profile
    records the outcome of those tests, and every context scores like
    the representative of its profile; a property of the results that
    is checked on every profile therefore holds for every context. *)

Module Profiles.
Import CurriculumStandards.

Module General := UseCurriculumRecommendation.
Module Selector := CurriculumSelector.

Inductive GradeBand : Type := primaryGrades | boardGrades | otherGrades.

Record Profile : Type := {
  inIndia : bool;
  school : SchoolType.t;
  medium : Language.t;
  band : GradeBand;
  experience : option Experience.t;
  supplies : option Resources.t
}.

(** The band of a [gradeLevel]: absent, empty and NaN give no bonus. *)
Definition bandOf (gradeLevel : option string) : GradeBand :=
  match gradeLevel with
  | None | Some EmptyString => otherGrades
  | Some g =>
      if JS.numLe (JS.parseInt g) 5 then primaryGrades
      else if JS.numGe (JS.parseInt g) 9 then boardGrades
      else otherGrades
  end.

Definition gradeOf (b : GradeBand) : option string :=
  match b with
  | primaryGrades => Some "5"
  | boardGrades => Some "9"
  | otherGrades => None
  end.

Definition profileOf (context : General.UserContext) : Profile :=
  {| inIndia := indicatesIndia (General.location context);
     school := General.schoolType context;
     medium := General.language context;
     band := bandOf (General.gradeLevel context);
     experience := General.teachingExperience context;
     supplies := General.resourceAvailability context |}.

Definition representative (p : Profile) : General.UserContext :=
  {| General.location := if inIndia p then "india" else "usa";
     General.schoolType := school p;
     General.language := medium p;
     General.gradeLevel := gradeOf (band p);
     General.previousSelections := None;
     General.teachingExperience := experience p;
     General.classSize := None;
     General.resourceAvailability := supplies p |}.

(** The profile of the props of the selector, which has no experience
    and no resource tier, and the props that stand for a profile. *)
Definition profileOfProps (props : Selector.CurriculumSelectorProps)
  : Profile :=
  {| inIndia := indicatesIndia (Selector.userLocation props);
     school := Selector.schoolType props;
     medium := Selector.language props;
     band := bandOf (Selector.gradeLevel props);
     experience := None;
     supplies := None |}.

Definition representativeProps (p : Profile)
  : Selector.CurriculumSelectorProps :=
  {| Selector.selectedStandard := None;
     Selector.userLocation := if inIndia p then "india" else "usa";
     Selector.schoolType := school p;
     Selector.language := medium p;
     Selector.gradeLevel := gradeOf (band p);
     Selector.showRecommendations := true |}.

(** A test on every profile. *)
Definition forallProfiles (test : Profile -> bool) : bool :=
  forallb (fun i =>
  forallb (fun s =>
  forallb (fun m =>
  forallb (fun b =>
  forallb (fun e =>
  forallb (fun r =>
    test {| inIndia := i; school := s; medium := m; band := b;
            experience := e; supplies := r |})
    [None; Some Resources.limited; Some Resources.moderate;
     Some Resources.abundant])
    [None; Some Experience.beginner; Some Experience.intermediate;
     Some Experience.expert])
    [primaryGrades; boardGrades; otherGrades])
    [Language.english; Language.hindi])
    [SchoolType.government; SchoolType.private; SchoolType.international])
    [true; false].

Lemma forallProfiles_spec (test : Profile -> bool) :
  forallProfiles test = true -> forall p, test p = true.
Proof.
  unfold forallProfiles. intros H [i s m b e r].
  apply (proj1 (forallb_forall _ _)) with (x := i) in H;
    [|destruct i; cbn; tauto].
  apply (proj1 (forallb_forall _ _)) with (x := s) in H;
    [|destruct s; cbn; tauto].
  apply (proj1 (forallb_forall _ _)) with (x := m) in H;
    [|destruct m; cbn; tauto].
  apply (proj1 (forallb_forall _ _)) with (x := b) in H;
    [|destruct b; cbn; tauto].
  apply (proj1 (forallb_forall _ _)) with (x := e) in H;
    [|destruct e as [[]|]; cbn; tauto].
  apply (proj1 (forallb_forall _ _)) with (x := r) in H;
    [|destruct r as [[]|]; cbn; tauto].
  exact H.
Qed.

Lemma numLe_5_not_numGe_9 (n : option Z) :
  JS.numLe n 5 = true -> JS.numGe n 9 = false.
Proof.
  destruct n as [v|]; cbn; [|discriminate].
  intros H. apply Z.leb_le in H. apply Z.leb_gt. lia.
Qed.

Lemma gradeLevelConsiderations_representative context r :
  General.gradeLevelConsiderations context r
  = General.gradeLevelConsiderations (representative (profileOf context)) r.
Proof.
  unfold General.gradeLevelConsiderations.
  cbn [General.gradeLevel representative profileOf band].
  destruct (General.gradeLevel context) as [[|c g]|]; cbn [bandOf gradeOf];
    try reflexivity.
  destruct (JS.numLe (JS.parseInt (String c g)) 5) eqn:Hle.
  - rewrite (numLe_5_not_numGe_9 _ Hle). reflexivity.
  - destruct (JS.numGe (JS.parseInt (String c g)) 9); reflexivity.
Qed.

Lemma geographicAlignment_representative context r :
  General.geographicAlignment context r
  = General.geographicAlignment (representative (profileOf context)) r.
Proof.
  unfold General.geographicAlignment.
  cbn [General.location representative profileOf inIndia].
  destruct (indicatesIndia (General.location context)); reflexivity.
Qed.

Lemma analyzeStandardFit_representative s context :
  General.analyzeStandardFit s context
  = General.analyzeStandardFit s (representative (profileOf context)).
Proof.
  unfold General.analyzeStandardFit, JS.andThen.
  rewrite <- gradeLevelConsiderations_representative.
  rewrite <- geographicAlignment_representative.
  reflexivity.
Qed.

Lemma generateRecommendations_representative context :
  General.generateRecommendations context
  = General.generateRecommendations (representative (profileOf context)).
Proof.
  rewrite !GeneralEngine.generateRecommendations_eq. unfold scoredCatalog.
  do 2 f_equal. apply map_ext. intros s.
  apply analyzeStandardFit_representative.
Qed.

Lemma gradeLevelScoring_representative props r :
  Selector.gradeLevelScoring props r
  = Selector.gradeLevelScoring (representativeProps (profileOfProps props)) r.
Proof.
  unfold Selector.gradeLevelScoring.
  cbn [Selector.gradeLevel representativeProps profileOfProps band].
  destruct (Selector.gradeLevel props) as [[|c g]|]; cbn [bandOf gradeOf];
    try reflexivity.
  destruct (JS.numLe (JS.parseInt (String c g)) 5) eqn:Hle.
  - rewrite (numLe_5_not_numGe_9 _ Hle). reflexivity.
  - destruct (JS.numGe (JS.parseInt (String c g)) 9); reflexivity.
Qed.

Lemma locationScoring_representative props r :
  Selector.locationScoring props r
  = Selector.locationScoring (representativeProps (profileOfProps props)) r.
Proof.
  unfold Selector.locationScoring.
  cbn [Selector.userLocation representativeProps profileOfProps inIndia].
  destruct (indicatesIndia (Selector.userLocation props)); reflexivity.
Qed.

Lemma scored_representative props s :
  Selector.scored props s
  = Selector.scored (representativeProps (profileOfProps props)) s.
Proof.
  unfold Selector.scored, JS.andThen.
  rewrite <- gradeLevelScoring_representative.
  rewrite <- locationScoring_representative.
  reflexivity.
Qed.

Lemma selector_recommendations_representative props :
  Selector.generateRecommendations props
  = Selector.generateRecommendations
      (representativeProps (profileOfProps props)).
Proof.
  rewrite !SelectorEngine.selector_recommendations_eq. f_equal.
  assert (Hpass : forall s,
             passes props s
             = passes (representativeProps (profileOfProps props)) s).
  { intros s. unfold passes. now rewrite <- scored_representative. }
  rewrite (filter_ext _ _ Hpass). apply map_ext. intros s.
  unfold pushed. now rewrite <- scored_representative.
Qed.

End Profiles.

(* ------------------------------------------------------------------ *)
(** ** The general engine: further properties *)

Module Recommendations.
Import CurriculumStandards UseCurriculumRecommendation Profiles.

(** The region whose standards a location makes primary. *)
Definition homeRegion (context : UserContext) : Region.t :=
  if indicatesIndia (location context)
  then Region.national else Region.international.

(** The priority the geographic rule assigns. *)
Definition priorityFor (context : UserContext) (s : CurriculumStandard)
  : Priority.t :=
  if indicatesIndia (location context) then
    match region s with
    | Region.national => Priority.primary
    | _ => Priority.secondary
    end
  else
    match region s with
    | Region.international => Priority.primary
    | _ => Priority.alternative
    end.

Ltac rule_cases rule :=
  intros; unfold rule, JS.andThen; GeneralEngine.split_tests; cbn;
  first [reflexivity | lia].

(** *** The clamp *)

Lemma geographicAlignment_at_most context r :
  confidence (geographicAlignment context r) <= confidence r + 35.
Proof. rule_cases geographicAlignment. Qed.

Lemma schoolTypeAlignment_at_most context r :
  confidence (schoolTypeAlignment context r) <= confidence r + 25.
Proof. rule_cases schoolTypeAlignment. Qed.

Lemma languageAlignment_at_most context r :
  confidence (languageAlignment context r) <= confidence r + 20.
Proof. rule_cases languageAlignment. Qed.

Lemma gradeLevelConsiderations_at_most context r :
  confidence (gradeLevelConsiderations context r) <= confidence r + 10.
Proof. rule_cases gradeLevelConsiderations. Qed.

Lemma teachingExperienceFactor_at_most context r :
  confidence (teachingExperienceFactor context r) <= confidence r + 5.
Proof. rule_cases teachingExperienceFactor. Qed.

Lemma resourceAvailabilityFactor_at_most context r :
  confidence (resourceAvailabilityFactor context r) <= confidence r + 5.
Proof. rule_cases resourceAvailabilityFactor. Qed.

(** X1.  The weights of the six rules add up to 100 at most, for any
    standard and any context, so [Math.min(confidence, 100)] never
    lowers a score: the returned confidence is the plain sum of the
    contributions.  The bound is reached. *)
Theorem clamp_never_truncates (s : CurriculumStandard) (context : UserContext) :
  confidence (accumulated s context) <= 100
  /\ confidence (analyzeStandardFit s context)
     = confidence (accumulated s context)
  /\ exists s' context',
       In s' allStandards
       /\ confidence (analyzeStandardFit s' context') = 100.
Proof.
  assert (H : confidence (accumulated s context) <= 100).
  { unfold accumulated, JS.andThen.
    set (r1 := geographicAlignment context (initially s)).
    set (r2 := schoolTypeAlignment context r1).
    set (r3 := languageAlignment context r2).
    set (r4 := gradeLevelConsiderations context r3).
    set (r5 := teachingExperienceFactor context r4).
    pose proof (geographicAlignment_at_most context (initially s)) as H1.
    pose proof (schoolTypeAlignment_at_most context r1) as H2.
    pose proof (languageAlignment_at_most context r2) as H3.
    pose proof (gradeLevelConsiderations_at_most context r3) as H4.
    pose proof (teachingExperienceFactor_at_most context r4) as H5.
    pose proof (resourceAvailabilityFactor_at_most context r5) as H6.
    cbn [confidence initially] in H1. fold r1 r2 r3 r4 r5 in H1, H2, H3, H4, H5, H6.
    lia. }
  split; [exact H|]. split.
  - rewrite GeneralEngine.analyzeStandardFit_returned.
    cbn [returned confidence]. lia.
  - eexists.
    exists {| location := "india";
              schoolType := SchoolType.government;
              language := Language.hindi;
              gradeLevel := Some "3";
              previousSelections := None;
              teachingExperience := Some Experience.beginner;
              classSize := None;
              resourceAvailability := Some Resources.limited |}.
    split; [left; reflexivity | reflexivity].
Qed.

(** *** The priority *)

Lemma schoolTypeAlignment_priority context r :
  priority (schoolTypeAlignment context r) = priority r.
Proof. rule_cases schoolTypeAlignment. Qed.

Lemma languageAlignment_priority context r :
  priority (languageAlignment context r) = priority r.
Proof. rule_cases languageAlignment. Qed.

Lemma gradeLevelConsiderations_priority context r :
  priority (gradeLevelConsiderations context r) = priority r.
Proof. rule_cases gradeLevelConsiderations. Qed.

Lemma teachingExperienceFactor_priority context r :
  priority (teachingExperienceFactor context r) = priority r.
Proof. rule_cases teachingExperienceFactor. Qed.

Lemma resourceAvailabilityFactor_priority context r :
  priority (resourceAvailabilityFactor context r) = priority r.
Proof. rule_cases resourceAvailabilityFactor. Qed.

Lemma geographicAlignment_priority context s :
  priority (geographicAlignment context (initially s)) = priorityFor context s.
Proof.
  unfold geographicAlignment, priorityFor, JS.andThen.
  cbn [standard initially].
  destruct (indicatesIndia (location context)), (region s); reflexivity.
Qed.

(** X2.  The priority of a result is decided by the geographic rule
    alone: primary for a national standard when the location indicates
    India and for an international standard when it does not, secondary
    for any other standard in India, alternative for any other standard
    elsewhere.  No later rule changes it. *)
Theorem priority_by_geography_alone
  (s : CurriculumStandard) (context : UserContext) :
  priority (analyzeStandardFit s context) = priorityFor context s.
Proof.
  rewrite GeneralEngine.analyzeStandardFit_returned. cbn [returned priority].
  unfold accumulated, JS.andThen.
  rewrite resourceAvailabilityFactor_priority, teachingExperienceFactor_priority,
    gradeLevelConsiderations_priority, languageAlignment_priority,
    schoolTypeAlignment_priority.
  apply geographicAlignment_priority.
Qed.

(** *** Which standards are recommended *)

Lemma home_standard_included context s :
  In s allStandards -> region s = homeRegion context ->
  In (analyzeStandardFit s context) (generateRecommendations context).
Proof.
  intros Hs Hregion. apply GeneralEngine.In_generateRecommendations.
  assert (Hfloor : 30 <= confidence (analyzeStandardFit s context)).
  { apply GeneralEngine.analyzeStandardFit_floor.
    unfold geographicAlignment, homeRegion, JS.andThen in *.
    cbn [standard initially].
    destruct (indicatesIndia (location context)); rewrite Hregion; cbn; lia. }
  split; [now exists s | exact Hfloor].
Qed.

Definition atLeastThree (p : Profile) : bool :=
  (3 <=? List.length (generateRecommendations (representative p)))%nat.

Lemma atLeastThree_always : forallProfiles atLeastThree = true.
Proof. vm_compute. reflexivity. Qed.

(** X3.  For every context, every catalog standard of the home region
    (national when the location indicates India, international when it
    does not) is among the recommendations, so there are always at least
    three results, and never more than the six of the catalog. *)
Theorem home_standards_always_recommended (context : UserContext) :
  incl
    (map (fun s => analyzeStandardFit s context)
       (filter (fun s => Region.eqb (region s) (homeRegion context))
          allStandards))
    (generateRecommendations context)
  /\ (3 <= List.length (generateRecommendations context) <= 6)%nat.
Proof.
  split.
  - intros r Hr. apply in_map_iff in Hr. destruct Hr as (s & <- & Hs).
    apply filter_In in Hs. destruct Hs as [Hs Hregion].
    apply home_standard_included; [exact Hs|].
    destruct (region s), (homeRegion context); (reflexivity || easy).
  - split.
    + rewrite generateRecommendations_representative.
      apply Nat.leb_le.
      exact (forallProfiles_spec _ atLeastThree_always (profileOf context)).
    + rewrite GeneralEngine.generateRecommendations_eq.
      rewrite (Permutation_length (sort_perm _ _)).
      eapply Nat.le_trans; [apply filter_length_le|].
      unfold scoredCatalog. now rewrite length_map.
Qed.

(** *** The first result *)

Definition expectedComplexity (context : UserContext) : Complexity.t :=
  if indicatesIndia (location context) then Complexity.low
  else match schoolType context with
       | SchoolType.international => Complexity.high
       | _ => Complexity.medium
       end.

Definition sameComplexity (a b : Complexity.t) : bool :=
  match a, b with
  | Complexity.low, Complexity.low
  | Complexity.medium, Complexity.medium
  | Complexity.high, Complexity.high => true
  | _, _ => false
  end.

Definition topAsExpected (p : Profile) : bool :=
  match generateRecommendations (representative p) with
  | [] => false
  | top :: _ =>
      Priority.eqb (priority top) Priority.primary
      && Region.eqb (region (standard top)) (homeRegion (representative p))
      && sameComplexity (implementationComplexity top)
           (expectedComplexity (representative p))
      && ((id (standard top) =? "ib")%string
          || (inIndia p
              && ((id (standard top) =? "ncert")%string
                  || (id (standard top) =? "cbse")%string)))
  end.

Lemma topAsExpected_always : forallProfiles topAsExpected = true.
Proof. vm_compute. reflexivity. Qed.

Lemma homeRegion_representative context :
  homeRegion (representative (profileOf context)) = homeRegion context.
Proof.
  unfold homeRegion. cbn [location representative profileOf inIndia].
  destruct (indicatesIndia (location context)); reflexivity.
Qed.

Lemma expectedComplexity_representative context :
  expectedComplexity (representative (profileOf context))
  = expectedComplexity context.
Proof.
  unfold expectedComplexity.
  cbn [location schoolType representative profileOf inIndia school].
  destruct (indicatesIndia (location context)); reflexivity.
Qed.

Lemma top_of_recommendations (context : UserContext) :
  exists top rest,
    generateRecommendations context = top :: rest
    /\ priority top = Priority.primary
    /\ region (standard top) = homeRegion context
    /\ implementationComplexity top = expectedComplexity context
    /\ (id (standard top) = "ib"
        \/ (indicatesIndia (location context) = true
            /\ (id (standard top) = "ncert" \/ id (standard top) = "cbse"))).
Proof.
  pose proof (forallProfiles_spec _ topAsExpected_always (profileOf context))
    as H.
  unfold topAsExpected in H.
  rewrite <- generateRecommendations_representative in H.
  rewrite homeRegion_representative, expectedComplexity_representative in H.
  destruct (generateRecommendations context) as [|top rest]; [discriminate|].
  exists top, rest. split; [reflexivity|].
  rewrite !andb_true_iff in H. destruct H as [[[Hp Hr] Hc] Hid].
  split; [now destruct (priority top)|].
  split; [now destruct (region (standard top)), (homeRegion context)|].
  split.
  { now destruct (implementationComplexity top), (expectedComplexity context). }
  apply orb_true_iff in Hid. destruct Hid as [Hid|Hid].
  - left. now apply String.eqb_eq.
  - right. apply andb_true_iff in Hid. destruct Hid as [Hin Hid].
    split; [exact Hin|].
    apply orb_true_iff in Hid. destruct Hid as [Hid|Hid];
      apply String.eqb_eq in Hid; auto.
Qed.

(** X4.  For every context the first recommendation has priority
    primary and a standard of the home region; it is ib whenever the
    location does not indicate India and ncert or cbse whenever it does;
    and its implementation complexity is low in India, high for an
    international school elsewhere, and medium otherwise. *)
Theorem top_recommendation (context : UserContext) :
  exists top rest,
    generateRecommendations context = top :: rest
    /\ priority top = Priority.primary
    /\ region (standard top) = homeRegion context
    /\ implementationComplexity top = expectedComplexity context
    /\ (id (standard top) = "ib"
        \/ (indicatesIndia (location context) = true
            /\ (id (standard top) = "ncert" \/ id (standard top) = "cbse"))).
Proof. apply top_of_recommendations. Qed.

(** *** The effect *)


(** *** The analytics, field by field *)

Definition sumConfidence (l : list RecommendationResult) : Z :=
  fold_right Z.add 0 (map confidence l).

Definition nationals (l : list RecommendationResult) : nat :=
  List.length (filter isNational l).

Definition others (l : list RecommendationResult) : nat :=
  List.length (filter (fun r => negb (isNational r)) l).

(** The entries of the category map when [indianFirst] tells which
    category was counted first. *)
Definition tally (indianFirst : bool) (nI nO : nat) : list (string * Z) :=
  if indianFirst then
    ("Indian", Z.of_nat nI)
    :: (if (nO =? 0)%nat then [] else [("International", Z.of_nat nO)])
  else
    ("International", Z.of_nat nO)
    :: (if (nI =? 0)%nat then [] else [("Indian", Z.of_nat nI)]).

Lemma categoryOf_isNational r :
  categoryOf r = if isNational r then "Indian" else "International".
Proof.
  unfold categoryOf, isNational. now destruct (region (standard r)).
Qed.

Lemma countCategory_tally (indianFirst : bool) (nI nO : nat) r :
  (if indianFirst then 1 <= nI else 1 <= nO)%nat ->
  countCategory (tally indianFirst nI nO) (categoryOf r)
  = if isNational r
    then tally indianFirst (S nI) nO
    else tally indianFirst nI (S nO).
Proof.
  intros Hfirst. rewrite categoryOf_isNational. unfold tally.
  destruct indianFirst, (isNational r), nI as [|nI], nO as [|nO];
    try lia; rewrite ?Nat2Z.inj_succ; cbn; repeat f_equal; lia.
Qed.

Lemma categoryCount_tally (l : list RecommendationResult)
  (indianFirst : bool) (nI nO : nat) :
  (if indianFirst then 1 <= nI else 1 <= nO)%nat ->
  fold_left (fun acc rec => countCategory acc (categoryOf rec)) l
    (tally indianFirst nI nO)
  = tally indianFirst (nI + nationals l) (nO + others l).
Proof.
  revert nI nO. induction l as [|r rest IH]; intros nI nO Hfirst.
  - unfold nationals, others. cbn. now rewrite !Nat.add_0_r.
  - cbn [fold_left]. rewrite countCategory_tally by exact Hfirst.
    unfold nationals, others in *. cbn [filter].
    destruct (isNational r); cbn [negb List.length].
    + rewrite IH by (destruct indianFirst; lia).
      now rewrite Nat.add_succ_r.
    + rewrite IH by (destruct indianFirst; lia).
      now rewrite Nat.add_succ_r.
Qed.

Lemma categoryCount_of (first : RecommendationResult)
  (rest : list RecommendationResult) :
  fold_left (fun acc rec => countCategory acc (categoryOf rec))
    (first :: rest) []
  = tally (isNational first) (nationals (first :: rest))
      (others (first :: rest)).
Proof.
  cbn [fold_left countCategory]. rewrite categoryOf_isNational.
  unfold nationals, others. cbn [filter].
  destruct (isNational first); cbn [negb List.length].
  - change [("Indian", 1)] with (tally true 1 0).
    rewrite categoryCount_tally by lia. reflexivity.
  - change [("International", 1)] with (tally false 0 1).
    rewrite categoryCount_tally by lia. reflexivity.
Qed.

(** The fields of the analytics of a list that starts with [first]. *)
Lemma generateAnalytics_fields (first : RecommendationResult)
  (rest : list RecommendationResult) :
  exists a,
    generateAnalytics (first :: rest) = JS.Return a
    /\ totalRecommendations a = List.length (first :: rest)
    /\ averageConfidence a
       = JS.Num (sumConfidence (first :: rest)
                 # Pos.of_nat (List.length (first :: rest)))
    /\ userSatisfactionPrediction a
       = JS.mathMin (JS.plus (averageConfidence a) 10) 95
    /\ implementationTimeEstimate a = timeMap (implementationComplexity first)
    /\ JS.Return (topCategory a)
       = match JS.reduce (fun a b => if snd b <? snd a then a else b)
                 (tally (isNational first) (nationals (first :: rest))
                    (others (first :: rest))) with
         | JS.Return top => JS.Return (fst top)
         | JS.Throw e => JS.Throw e
         end.
Proof.
  unfold generateAnalytics. rewrite categoryCount_of.
  unfold tally at 1. destruct (isNational first) eqn:Hfirst; cbn [JS.reduce].
  - eexists. split; [reflexivity|].
    cbn [totalRecommendations averageConfidence userSatisfactionPrediction
           implementationTimeEstimate topCategory].
    split; [reflexivity|]. split.
    { unfold JS.divide, sumConfidence. cbn [List.length].
      now rewrite GeneralEngine.sum_confidence, Z.add_0_l. }
    split; [reflexivity|]. split.
    { now destruct (implementationComplexity first). }
    unfold tally. now cbn [JS.reduce].
  - eexists. split; [reflexivity|].
    cbn [totalRecommendations averageConfidence userSatisfactionPrediction
           implementationTimeEstimate topCategory].
    split; [reflexivity|]. split.
    { unfold JS.divide, sumConfidence. cbn [List.length].
      now rewrite GeneralEngine.sum_confidence, Z.add_0_l. }
    split; [reflexivity|]. split.
    { now destruct (implementationComplexity first). }
    unfold tally. now cbn [JS.reduce].
Qed.

(** X6.  On a list that is not empty, [topCategory] is the category
    with more results, Indian for the national region and International
    for the others; when both have as many, it is the category that was
    met later in the list, not the category of the first result. *)
Theorem topCategory_majority_later_on_tie
  (first : RecommendationResult) (rest : list RecommendationResult) :
  exists a,
    generateAnalytics (first :: rest) = JS.Return a
    /\ topCategory a
       = if (others (first :: rest) <? nationals (first :: rest))%nat
         then "Indian"
         else if (nationals (first :: rest) <? others (first :: rest))%nat
              then "International"
              else if isNational first then "International" else "Indian".
Proof.
  destruct (generateAnalytics_fields first rest)
    as (a & Ha & _ & _ & _ & _ & Htop).
  exists a. split; [exact Ha|].
  assert (Hfirst : (if isNational first
                    then 1 <= nationals (first :: rest)
                    else 1 <= others (first :: rest))%nat).
  { unfold nationals, others. cbn [filter].
    destruct (isNational first); cbn; lia. }
  set (nI := nationals (first :: rest)) in *.
  set (nO := others (first :: rest)) in *.
  unfold tally in Htop.
  destruct (isNational first); cbv iota in Hfirst.
  - destruct (Nat.eqb_spec nO 0) as [HO|HO].
    + cbn [JS.reduce fold_left snd fst] in Htop. injection Htop as ->. rewrite HO.
      destruct (Nat.ltb_spec 0 nI); [reflexivity | lia].
    + cbn [JS.reduce fold_left snd fst] in Htop. injection Htop as ->.
      destruct (Z.ltb_spec (Z.of_nat nO) (Z.of_nat nI)),
        (Nat.ltb_spec nO nI), (Nat.ltb_spec nI nO);
        (reflexivity || lia).
  - destruct (Nat.eqb_spec nI 0) as [HI|HI].
    + cbn [JS.reduce fold_left snd fst] in Htop. injection Htop as ->. rewrite HI.
      destruct (Nat.ltb_spec nO 0); [lia|].
      destruct (Nat.ltb_spec 0 nO); [reflexivity | lia].
    + cbn [JS.reduce fold_left snd fst] in Htop. injection Htop as ->.
      destruct (Z.ltb_spec (Z.of_nat nI) (Z.of_nat nO)),
        (Nat.ltb_spec nO nI), (Nat.ltb_spec nI nO);
        (reflexivity || lia).
Qed.

Lemma sumConfidence_between (lo hi : Z) (l : list RecommendationResult) :
  Forall (fun r => lo <= confidence r <= hi) l ->
  lo * Z.of_nat (List.length l) <= sumConfidence l
  /\ sumConfidence l <= hi * Z.of_nat (List.length l).
Proof.
  unfold sumConfidence.
  induction 1 as [|r rest Hr Hrest IH]; cbn [map fold_right List.length].
  - lia.
  - rewrite Nat2Z.inj_succ. lia.
Qed.

Lemma recommendations_in_range context :
  Forall (fun r => 30 <= confidence r <= 100)
    (generateRecommendations context).
Proof.
  apply Forall_forall. intros r Hr.
  apply GeneralEngine.In_generateRecommendations in Hr.
  destruct Hr as [(s & _ & ->) H30]. split; [exact H30|].
  rewrite GeneralEngine.analyzeStandardFit_returned.
  cbn [returned confidence]. lia.
Qed.

(** X7.  The analytics of the recommendations of any context: the
    count is the number of results, the average confidence lies between
    30 and 100, the predicted satisfaction is the average plus 10 capped
    at 95 and so lies between 40 and 95, and the time estimate is
    1-2 weeks when the location indicates India, 6-8 weeks for an
    international school elsewhere, and 3-4 weeks otherwise. *)
Theorem analytics_of_recommendations (context : UserContext) :
  exists a q u,
    generateAnalytics (generateRecommendations context) = JS.Return a
    /\ totalRecommendations a
       = List.length (generateRecommendations context)
    /\ averageConfidence a = JS.Num q
    /\ (30 <= q <= 100)%Q
    /\ userSatisfactionPrediction a = JS.Num u
    /\ u = (if Qle_bool (q + 10) 95 then q + 10 else 95)%Q
    /\ (40 <= u <= 95)%Q
    /\ implementationTimeEstimate a = timeMap (expectedComplexity context).
Proof.
  destruct (top_of_recommendations context)
    as (top & rest & Hout & _ & _ & Hcomplexity & _).
  pose proof (recommendations_in_range context) as Hrange.
  rewrite Hout in *.
  destruct (generateAnalytics_fields top rest)
    as (a & Ha & Hn & Havg & Hsat & Htime & _).
  destruct (sumConfidence_between 30 100 _ Hrange) as [Hlo Hhi].
  set (n := List.length (top :: rest)) in *.
  set (q := sumConfidence (top :: rest) # Pos.of_nat n) in *.
  assert (Hp : Z.pos (Pos.of_nat n) = Z.of_nat n).
  { rewrite <- (positive_nat_Z (Pos.of_nat n)).
    now rewrite Nat2Pos.id by discriminate. }
  assert (Hq : (30 <= q <= 100)%Q).
  { unfold q, Qle. cbn [Qnum Qden]. rewrite Hp. lia. }
  assert (H40 : (40 <= q + 10)%Q).
  { setoid_replace 40%Q with (30 + 10)%Q by reflexivity.
    apply Qplus_le_compat; [apply Hq | apply Qle_refl]. }
  rewrite Havg in Hsat. cbn [JS.plus JS.mathMin] in Hsat.
  exists a, q.
  destruct (Qle_bool (q + 10) 95) eqn:Hcap.
  - exists (q + 10)%Q. apply Qle_bool_iff in Hcap.
    repeat split; try assumption; try tauto.
    now rewrite Htime, Hcomplexity.
  - exists 95%Q.
    assert (Hgt : (95 <= q + 10)%Q).
    { apply Qnot_lt_le. intros Hlt. apply Qlt_le_weak in Hlt.
      apply Qle_bool_iff in Hlt. congruence. }
    repeat split; try assumption; try tauto.
    + discriminate.
    + apply Qle_refl.
    + now rewrite Htime, Hcomplexity.
Qed.

(** *** The implementation guidance *)

Definition unknownGuidance : ImplementationGuidance :=
  {| complexity := "Unknown";
     timeEstimate := "Not available";
     steps := [];
     resources := [] |}.

Lemma find_by_id_none (l : list RecommendationResult) (standardId : string) :
  find (fun r => (id (standard r) =? standardId)%string) l = None
  <-> Forall (fun r => id (standard r) <> standardId) l.
Proof.
  rewrite Forall_forall. split.
  - intros H r Hr. apply (find_none _ _ H) in Hr.
    now apply String.eqb_neq.
  - intros H. destruct (find _ l) as [r|] eqn:Hfind; [|reflexivity].
    apply find_some in Hfind. destruct Hfind as [Hr Hid].
    apply String.eqb_eq in Hid. now apply H in Hr.
Qed.

(** X8.  [getImplementationGuidance] returns the Unknown object, with
    no steps and no resources, exactly when no stored recommendation has
    the requested id; for an id that is stored it returns the label, the
    time estimate, the steps and the resources of the complexity of the
    first stored result with that id, and the steps and resources are
    never empty then. *)
Theorem guidance_unknown_iff_absent (st : HookState) (standardId : string) :
  (getImplementationGuidance st standardId = unknownGuidance
   <-> Forall (fun r => id (standard r) <> standardId) (recommendations st))
  /\ (complexity (getImplementationGuidance st standardId) = "Unknown"
      <-> Forall (fun r => id (standard r) <> standardId) (recommendations st))
  /\ match find (fun r => (id (standard r) =? standardId)%string)
             (recommendations st) with
     | None => True
     | Some r =>
         getImplementationGuidance st standardId
         = {| complexity := complexityMap (implementationComplexity r);
              timeEstimate := timeMap (implementationComplexity r);
              steps := stepMap (implementationComplexity r);
              resources := resourceMap (implementationComplexity r) |}
         /\ steps (getImplementationGuidance st standardId) <> []
         /\ resources (getImplementationGuidance st standardId) <> []
     end.
Proof.
  rewrite <- find_by_id_none. unfold getImplementationGuidance.
  destruct (find _ (recommendations st)) as [r|].
  - split; [|split].
    + split; [|discriminate].
      destruct (implementationComplexity r); discriminate.
    + split; [|discriminate].
      destruct (implementationComplexity r); discriminate.
    + split; [reflexivity|].
      split; destruct (implementationComplexity r); discriminate.
  - repeat split; reflexivity.
Qed.

(** X9.  After [runAnalysis], the time estimate of the guidance for the
    standard of the first recommendation is the time estimate of the
    stored analytics. *)
Theorem guidance_time_agrees_with_analytics
  (context : UserContext) (st : HookState) :
  exists top a,
    hd_error (recommendations (fst (runAnalysis context st))) = Some top
    /\ analytics (fst (runAnalysis context st)) = Some a
    /\ timeEstimate
         (getImplementationGuidance (fst (runAnalysis context st))
            (id (standard top)))
       = implementationTimeEstimate a.
Proof.
  destruct (top_of_recommendations context) as (top & rest & Hout & _).
  destruct (generateAnalytics_fields top rest)
    as (a & Ha & _ & _ & _ & Htime & _).
  exists top, a.
  unfold getImplementationGuidance, runAnalysis.
  rewrite Hout, Ha. cbn [fst recommendations analytics hd_error find].
  rewrite String.eqb_refl. cbn [timeEstimate].
  split; [reflexivity|]. split; [reflexivity|]. now rewrite Htime.
Qed.

End Recommendations.

(* ------------------------------------------------------------------ *)
(** ** The selector: further properties *)

Module SelectorFacts.
Import CurriculumStandards CurriculumSelector Profiles.

Ltac selector_cases rule :=
  intros; unfold rule, JS.andThen; GeneralEngine.split_tests; cbn;
  first [reflexivity | lia].

Lemma locationScoring_at_most props r :
  confidence (locationScoring props r) <= confidence r + 40.
Proof. selector_cases locationScoring. Qed.

Lemma schoolTypeScoring_at_most props r :
  confidence (schoolTypeScoring props r) <= confidence r + 30.
Proof. selector_cases schoolTypeScoring. Qed.

Lemma languageScoring_at_most props r :
  confidence (languageScoring props r) <= confidence r + 15.
Proof. selector_cases languageScoring. Qed.

Lemma gradeLevelScoring_at_most props r :
  confidence (gradeLevelScoring props r) <= confidence r + 15.
Proof. selector_cases gradeLevelScoring. Qed.

(** X10.  The weights of the selector's four rules add up to 100 at
    most, so the [Math.min(confidence, 100)] of the pushed object never
    lowers a score: every selector result carries the sum its rules
    accumulated, the reasons they pushed and the priority they set. *)
Theorem selector_clamp_never_truncates
  (props : CurriculumSelectorProps) (s : CurriculumStandard) :
  confidence (scored props s) <= 100
  /\ pushed props s
     = {| standard := s;
          confidence := confidence (scored props s);
          reasons := reasons (scored props s);
          priority := priority (scored props s) |}
  /\ Forall (fun r => exists s', In s' allStandards /\ r = pushed props s'
                      /\ confidence r = confidence (scored props s'))
       (generateRecommendations props).
Proof.
  assert (H : forall s', confidence (scored props s') <= 100).
  { intros s'. unfold scored, JS.andThen.
    set (r1 := locationScoring props (initially s')).
    set (r2 := schoolTypeScoring props r1).
    set (r3 := languageScoring props r2).
    pose proof (locationScoring_at_most props (initially s')) as H1.
    pose proof (schoolTypeScoring_at_most props r1) as H2.
    pose proof (languageScoring_at_most props r2) as H3.
    pose proof (gradeLevelScoring_at_most props r3) as H4.
    cbn [confidence initially] in H1. fold r1 r2 r3 in H1, H2, H3, H4.
    lia. }
  split; [apply H|]. split.
  - unfold pushed. f_equal. specialize (H s). lia.
  - apply Forall_forall. intros r Hr.
    apply SelectorEngine.In_selector_recommendations in Hr.
    destruct Hr as (s' & Hs' & _ & ->). exists s'.
    split; [exact Hs'|]. split; [reflexivity|].
    unfold pushed. cbn [confidence]. specialize (H s'). lia.
Qed.

(** *** The first result of the selector *)

Definition selectorHomeRegion (props : CurriculumSelectorProps) : Region.t :=
  if indicatesIndia (userLocation props)
  then Region.national else Region.international.

Definition selectorTopAsExpected (p : Profile) : bool :=
  match generateRecommendations (representativeProps p) with
  | [] => false
  | top :: _ =>
      Priority.eqb (priority top) Priority.primary
      && Region.eqb (region (standard top))
           (selectorHomeRegion (representativeProps p))
  end.

Lemma selectorTopAsExpected_always :
  forallProfiles selectorTopAsExpected = true.
Proof. vm_compute. reflexivity. Qed.

Lemma selectorHomeRegion_representative props :
  selectorHomeRegion (representativeProps (profileOfProps props))
  = selectorHomeRegion props.
Proof.
  unfold selectorHomeRegion.
  cbn [userLocation representativeProps profileOfProps inIndia].
  destruct (indicatesIndia (userLocation props)); reflexivity.
Qed.

Lemma top_of_selector (props : CurriculumSelectorProps) :
  exists top rest,
    generateRecommendations props = top :: rest
    /\ priority top = Priority.primary
    /\ region (standard top) = selectorHomeRegion props.
Proof.
  pose proof (forallProfiles_spec _ selectorTopAsExpected_always
                (profileOfProps props)) as H.
  unfold selectorTopAsExpected in H.
  rewrite <- selector_recommendations_representative in H.
  rewrite selectorHomeRegion_representative in H.
  destruct (generateRecommendations props) as [|top rest]; [discriminate|].
  exists top, rest. split; [reflexivity|].
  apply andb_true_iff in H. destruct H as [Hp Hr].
  split; [now destruct (priority top)|].
  now destruct (region (standard top)), (selectorHomeRegion props).
Qed.

(** X11.  For all props the list that the selector's
    [generateRecommendations] computes is not empty, and its first
    result has priority primary and a standard of the home region of
    the location.  The component runs that function only when
    [showRecommendations] is set: it then stores the list and, when no
    standard is selected, hands the standard of the first result to
    [onSelectStandard], making no such call when one is selected.  When
    [showRecommendations] is not set, the stored list stays empty and
    [onSelectStandard] is not called. *)
Theorem selector_first_result (props : CurriculumSelectorProps) :
  exists top rest,
    generateRecommendations props = top :: rest
    /\ priority top = Priority.primary
    /\ region (standard top) = selectorHomeRegion props
    /\ (if showRecommendations props
        then storedRecommendations props = top :: rest
             /\ autoSelected props
                = match selectedStandard props with
                  | None => Some (standard top)
                  | Some _ => None
                  end
        else storedRecommendations props = []
             /\ autoSelected props = None).
Proof.
  destruct (top_of_selector props) as (top & rest & Hout & Hp & Hr).
  exists top, rest. repeat split; try assumption.
  unfold autoSelected, storedRecommendations. rewrite Hout.
  destruct (showRecommendations props); [|now split].
  split; [reflexivity|]. now destruct (selectedStandard props).
Qed.

(** *** The two engines on the same input *)

Module General := UseCurriculumRecommendation.

Definition sameFirstStandard (p : Profile) : bool :=
  match General.generateRecommendations (representative p),
        generateRecommendations (representativeProps p) with
  | top :: _, top' :: _ =>
      (id (General.standard top) =? id (standard top'))%string
  | _, _ => false
  end.

Lemma sameFirstStandard_always : forallProfiles sameFirstStandard = true.
Proof. vm_compute. reflexivity. Qed.

Definition propsOf (context : General.UserContext) : CurriculumSelectorProps :=
  {| selectedStandard := None;
     userLocation := General.location context;
     schoolType := General.schoolType context;
     language := General.language context;
     gradeLevel := General.gradeLevel context;
     showRecommendations := true |}.

(** X12.  Given the same location, school type, language and grade
    level, the general engine and the selector put the same catalog
    standard first, whatever the teaching experience and the resource
    availability of the context. *)
Theorem engines_agree_on_first_standard
  (context : General.UserContext) (props : CurriculumSelectorProps) :
  userLocation props = General.location context ->
  schoolType props = General.schoolType context ->
  language props = General.language context ->
  gradeLevel props = General.gradeLevel context ->
  exists top top',
    hd_error (General.generateRecommendations context) = Some top
    /\ hd_error (generateRecommendations props) = Some top'
    /\ standard top' = General.standard top.
Proof.
  intros Hlocation Hschool Hlanguage Hgrade.
  pose proof (forallProfiles_spec _ sameFirstStandard_always
                (profileOf context)) as H.
  unfold sameFirstStandard in H.
  rewrite <- generateRecommendations_representative in H.
  assert (Hprops : representativeProps (profileOf context)
                   = representativeProps (profileOfProps props)).
  { unfold representativeProps, profileOf, profileOfProps.
    cbn [inIndia school medium band].
    now rewrite Hlocation, Hschool, Hlanguage, Hgrade. }
  rewrite Hprops, <- selector_recommendations_representative in H.
  destruct (General.generateRecommendations context) as [|top rest] eqn:Hout;
    [discriminate|].
  destruct (generateRecommendations props) as [|top' rest'] eqn:Hout';
    [discriminate|].
  exists top, top'. split; [reflexivity|]. split; [reflexivity|].
  apply String.eqb_eq in H.
  assert (Htop : In top (General.generateRecommendations context))
    by (rewrite Hout; now left).
  assert (Htop' : In top' (generateRecommendations props))
    by (rewrite Hout'; now left).
  apply GeneralEngine.In_generateRecommendations in Htop.
  destruct Htop as [(s & Hs & Htop) _].
  apply SelectorEngine.In_selector_recommendations in Htop'.
  destruct Htop' as (s' & Hs' & _ & Htop').
  rewrite Htop, GeneralEngine.standard_analyzeStandardFit in *.
  rewrite Htop' in *. cbn [standard pushed] in *.
  apply GeneralEngine.allStandards_id_inj; auto.
Qed.

Lemma engines_agree_on_first_standard_witness :
  exists top top',
    hd_error (General.generateRecommendations indiaGovernmentHindiGrade3)
    = Some top
    /\ hd_error (generateRecommendations (propsOf indiaGovernmentHindiGrade3))
       = Some top'
    /\ standard top' = General.standard top.
Proof.
  apply engines_agree_on_first_standard; reflexivity.
Defined.

End SelectorFacts.

(* ------------------------------------------------------------------ *)
(** ** The alignment functions *)

Module AlignmentFacts.
Import CurriculumStandards CurriculumAlignment.

(** The elements of [l] that occur neither in [seen] nor earlier in
    [l], in order. *)
Fixpoint firstOccurrences (seen l : list string) : list string :=
  match l with
  | [] => []
  | x :: rest =>
      if JS.arrayIncludes seen x
      then firstOccurrences (seen ++ [x]) rest
      else x :: firstOccurrences (seen ++ [x]) rest
  end.

Lemma arrayIncludes_In (l : list string) (x : string) :
  JS.arrayIncludes l x = true <-> In x l.
Proof.
  unfold JS.arrayIncludes. rewrite existsb_exists. split.
  - intros (y & Hy & E). apply String.eqb_eq in E. now subst.
  - intros H. exists x. split; [exact H | apply String.eqb_refl].
Qed.

Lemma indexOfFrom_seen (x : string) (seen rest : list string) (from : Z) :
  In x seen ->
  JS.indexOfFrom x (seen ++ rest) from < from + Z.of_nat (List.length seen).
Proof.
  revert from. induction seen as [|y seen IH]; intros from H; [destruct H|].
  cbn [app JS.indexOfFrom List.length]. rewrite Nat2Z.inj_succ.
  destruct (y =? x)%string eqn:E; [lia|].
  destruct H as [->|H]; [rewrite String.eqb_refl in E; discriminate|].
  specialize (IH (from + 1) H). lia.
Qed.

Lemma indexOfFrom_fresh (x : string) (seen rest : list string) (from : Z) :
  ~ In x seen ->
  JS.indexOfFrom x (seen ++ x :: rest) from
  = from + Z.of_nat (List.length seen).
Proof.
  revert from. induction seen as [|y seen IH]; intros from H;
    cbn [app JS.indexOfFrom List.length].
  - rewrite String.eqb_refl. cbn. lia.
  - rewrite Nat2Z.inj_succ. destruct (y =? x)%string eqn:E.
    + apply String.eqb_eq in E. subst y. exfalso. apply H. now left.
    + rewrite IH; [lia|]. intros Hin. apply H. now right.
Qed.

Lemma filterFrom_firstOccurrences (array l seen : list string) :
  array = seen ++ l ->
  JS.filterFrom (fun topic index => JS.indexOf array topic =? index)
    (Z.of_nat (List.length seen)) l
  = firstOccurrences seen l.
Proof.
  revert seen. induction l as [|x rest IH]; intros seen Harray;
    [reflexivity|].
  cbn [JS.filterFrom firstOccurrences].
  assert (Hnext : JS.filterFrom
                    (fun topic index => JS.indexOf array topic =? index)
                    (Z.of_nat (List.length seen) + 1) rest
                  = firstOccurrences (seen ++ [x]) rest).
  { rewrite <- (IH (seen ++ [x])).
    - rewrite length_app. cbn [List.length]. f_equal. lia.
    - rewrite Harray, <- app_assoc. reflexivity. }
  rewrite Hnext. unfold JS.indexOf. rewrite Harray.
  destruct (JS.arrayIncludes seen x) eqn:Hin.
  - apply arrayIncludes_In in Hin.
    pose proof (indexOfFrom_seen x seen (x :: rest) 0 Hin) as Hlt.
    destruct (Z.eqb_spec (JS.indexOfFrom x (seen ++ x :: rest) 0)
                (Z.of_nat (List.length seen))); [lia | reflexivity].
  - assert (Hfresh : ~ In x seen).
    { intros H. apply arrayIncludes_In in H. congruence. }
    rewrite (indexOfFrom_fresh x seen rest 0 Hfresh), Z.add_0_l.
    now rewrite Z.eqb_refl.
Qed.

Lemma firstOccurrences_In (seen l : list string) (y : string) :
  In y (firstOccurrences seen l) <-> In y l /\ ~ In y seen.
Proof.
  revert seen. induction l as [|x rest IH]; intros seen;
    cbn [firstOccurrences]; [cbn; tauto|].
  destruct (JS.arrayIncludes seen x) eqn:Hin.
  - apply arrayIncludes_In in Hin. rewrite IH, in_app_iff. cbn [In].
    split.
    + intros [Hy Hn]. split; [now right | tauto].
    + intros [[->|Hy] Hn]; [contradiction|].
      split; [exact Hy|]. intros [H|[->|[]]]; contradiction.
  - assert (Hfresh : ~ In x seen).
    { intros H. apply arrayIncludes_In in H. congruence. }
    cbn [In]. rewrite IH, in_app_iff. cbn [In]. split.
    + intros [->|[Hy Hn]]; [tauto|]. split; [now right | tauto].
    + intros [[->|Hy] Hn]; [now left|].
      destruct (string_dec x y) as [->|Hxy]; [now left|].
      right. split; [exact Hy|]. intros [H|[H|[]]]; contradiction.
Qed.

Lemma firstOccurrences_NoDup (seen l : list string) :
  NoDup (firstOccurrences seen l).
Proof.
  revert seen. induction l as [|x rest IH]; intros seen;
    cbn [firstOccurrences]; [constructor|].
  destruct (JS.arrayIncludes seen x); [apply IH|].
  constructor; [|apply IH].
  rewrite firstOccurrences_In, in_app_iff. cbn [In]. tauto.
Qed.

Lemma filterFrom_In {A : Type} (predicate : A -> Z -> bool) (l : list A)
  (from : Z) (y : A) :
  In y (JS.filterFrom predicate from l) ->
  exists index, from <= index /\ predicate y index = true.
Proof.
  revert from. induction l as [|a rest IH]; intros from H;
    cbn [JS.filterFrom] in H; [destruct H|].
  destruct (predicate a from) eqn:Ha.
  - destruct H as [<-|H]; [exists from; split; [lia | exact Ha]|].
    destruct (IH _ H) as (index & Hle & Hy). exists index. split; [lia|exact Hy].
  - destruct (IH _ H) as (index & Hle & Hy). exists index. split; [lia|exact Hy].
Qed.

(** What [filter] keeps, it keeps in the order of the array: an element
    kept at one index is followed only by elements kept at larger
    indices. *)
Lemma filterFrom_in_order {A : Type} (predicate : A -> Z -> bool)
  (l : list A) (from : Z) (front back : list A) (x : A) :
  JS.filterFrom predicate from l = front ++ x :: back ->
  exists index,
    from <= index /\ predicate x index = true
    /\ forall y, In y back ->
                 exists later, index < later /\ predicate y later = true.
Proof.
  revert from front. induction l as [|a rest IH]; intros from front H;
    cbn [JS.filterFrom] in H; [now destruct front|].
  destruct (predicate a from) eqn:Ha.
  - destruct front as [|f front]; cbn [app] in H; injection H as -> H.
    + exists from. split; [lia|]. split; [exact Ha|].
      intros y Hy. rewrite <- H in Hy.
      destruct (filterFrom_In _ _ _ _ Hy) as (later & Hle & Hlater).
      exists later. split; [lia | exact Hlater].
    + destruct (IH _ _ H) as (index & Hle & Hx & Hback).
      exists index. split; [lia|]. now split.
  - destruct (IH _ _ H) as (index & Hle & Hx & Hback).
    exists index. split; [lia|]. now split.
Qed.

Lemma filterIndexed_first_index_order (array : list string) (x y : string) :
  listedBefore
    (JS.filterIndexed (fun topic index => JS.indexOf array topic =? index)
       array) x y ->
  JS.indexOf array x < JS.indexOf array y.
Proof.
  intros (front & between & back & H). unfold JS.filterIndexed in H.
  apply filterFrom_in_order in H.
  destruct H as (index & _ & Hx & Hback).
  destruct (Hback y) as (later & Hlt & Hy);
    [apply in_or_app; right; now left|].
  apply Z.eqb_eq in Hx, Hy. lia.
Qed.

Section ReportFacts.

Variable roundedPercentage : Z -> Z -> Z.

(** X13.  The critical gaps of a report are the first five of the
    distinct missing topics of the gaps in first-occurrence order.  The
    list [distinct], of which they are the first five entries, is the
    list of first occurrences of the concatenated missing topics: it has
    no repetition, it holds exactly the missing topics of all gaps, and
    of two of its entries the earlier one is the one whose first index
    in the concatenation is smaller, which determines it.  So the
    critical gaps have no repetition and are five at most. *)
Theorem criticalGaps_first_five_distinct
  (gaps : list ContentGap.t) (standard : CurriculumStandard) :
  exists distinct,
    criticalGaps (generateAlignmentReport roundedPercentage gaps standard)
    = firstn 5 distinct
    /\ distinct
       = firstOccurrences [] (flat_map ContentGap.missingTopics gaps)
    /\ NoDup distinct
    /\ (forall topic,
          In topic distinct
          <-> exists gap,
                In gap gaps /\ In topic (ContentGap.missingTopics gap))
    /\ (forall x y,
          listedBefore distinct x y ->
          JS.indexOf (flat_map ContentGap.missingTopics gaps) x
          < JS.indexOf (flat_map ContentGap.missingTopics gaps) y)
    /\ NoDup
         (criticalGaps
            (generateAlignmentReport roundedPercentage gaps standard))
    /\ (List.length
          (criticalGaps
             (generateAlignmentReport roundedPercentage gaps standard))
        <= 5)%nat.
Proof.
  exists (firstOccurrences [] (flat_map ContentGap.missingTopics gaps)).
  assert (Hfilter :
            JS.filterIndexed
              (fun topic index =>
                 JS.indexOf (flat_map ContentGap.missingTopics gaps) topic
                 =? index)
              (flat_map ContentGap.missingTopics gaps)
            = firstOccurrences [] (flat_map ContentGap.missingTopics gaps)).
  { exact (filterFrom_firstOccurrences _ _ [] eq_refl). }
  assert (Hcritical :
            criticalGaps
              (generateAlignmentReport roundedPercentage gaps standard)
            = firstn 5
                (firstOccurrences []
                   (flat_map ContentGap.missingTopics gaps))).
  { cbn [generateAlignmentReport criticalGaps]. now rewrite Hfilter. }
  rewrite Hcritical.
  split; [reflexivity|]. split; [reflexivity|].
  split; [apply firstOccurrences_NoDup|].
  split.
  { intros topic. rewrite firstOccurrences_In, in_flat_map. cbn [In]. tauto. }
  split.
  { intros x y Hxy. rewrite <- Hfilter in Hxy.
    now apply filterIndexed_first_index_order. }
  split.
  - pose proof (firstOccurrences_NoDup []
                  (flat_map ContentGap.missingTopics gaps)) as H.
    rewrite <- (firstn_skipn 5 (firstOccurrences [] _)) in H.
    now apply NoDup_app_remove_r in H.
  - apply firstn_le_length.
Qed.

Definition partialCount (gaps : list ContentGap.t) : Z :=
  fold_right Z.add 0
    (map (fun gap =>
            Z.of_nat (List.length (ContentGap.partiallyAlignedTopics gap)))
       gaps).

Definition missingCount (gaps : list ContentGap.t) : Z :=
  fold_right Z.add 0
    (map (fun gap => Z.of_nat (List.length (ContentGap.missingTopics gap)))
       gaps).

Lemma totalTopics_sum (gaps : list ContentGap.t) (start : Z) :
  fold_left
    (fun sum gap =>
       sum + Z.of_nat (List.length (ContentGap.missingTopics gap))
       + Z.of_nat (List.length (ContentGap.partiallyAlignedTopics gap)))
    gaps start
  = start + missingCount gaps + partialCount gaps.
Proof.
  revert start. unfold missingCount, partialCount.
  induction gaps as [|gap rest IH]; intros start; cbn [fold_left map fold_right].
  - lia.
  - rewrite IH. lia.
Qed.

Lemma alignedTopics_sum (gaps : list ContentGap.t) (start : Z) :
  fold_left
    (fun sum gap =>
       sum + Z.of_nat (List.length (ContentGap.partiallyAlignedTopics gap)))
    gaps start
  = start + partialCount gaps.
Proof.
  revert start. unfold partialCount.
  induction gaps as [|gap rest IH]; intros start; cbn [fold_left map fold_right].
  - lia.
  - rewrite IH. lia.
Qed.

Lemma counts_nonnegative (gaps : list ContentGap.t) :
  0 <= missingCount gaps /\ 0 <= partialCount gaps.
Proof.
  unfold missingCount, partialCount.
  induction gaps as [|gap rest IH]; cbn [map fold_right]; lia.
Qed.

(** X14.  The overall score never divides by zero: with no topic at
    all, which includes the empty list of gaps, it is 100; otherwise
    the rounded percentage is taken of the number of partially aligned
    topics over the number of all topics, the first not negative and at
    most the second.  A missing topic never counts as aligned. *)
Theorem overallScore_guarded
  (gaps : list ContentGap.t) (standard : CurriculumStandard) :
  0 <= partialCount gaps <= missingCount gaps + partialCount gaps
  /\ overallScore (generateAlignmentReport roundedPercentage gaps standard)
     = if missingCount gaps + partialCount gaps =? 0
       then 100
       else roundedPercentage (partialCount gaps)
              (missingCount gaps + partialCount gaps).
Proof.
  destruct (counts_nonnegative gaps) as [Hm Hp].
  split; [lia|].
  cbn [generateAlignmentReport overallScore].
  rewrite totalTopics_sum, alignedTopics_sum, !Z.add_0_l.
  destruct (Z.ltb_spec 0 (missingCount gaps + partialCount gaps)),
    (Z.eqb_spec (missingCount gaps + partialCount gaps) 0);
    (reflexivity || lia).
Qed.

End ReportFacts.

(** Two gaps whose missing topics are a, b, a, c and d, b, e, f. *)
Definition sampleGaps : list ContentGap.t :=
  [ {| ContentGap.standardId := "ncert";
       ContentGap.subject := "science";
       ContentGap.grade := "5";
       ContentGap.missingTopics := ["a"; "b"; "a"; "c"];
       ContentGap.partiallyAlignedTopics := [];
       ContentGap.recommendations := [] |};
    {| ContentGap.standardId := "ncert";
       ContentGap.subject := "science";
       ContentGap.grade := "8";
       ContentGap.missingTopics := ["d"; "b"; "e"; "f"];
       ContentGap.partiallyAlignedTopics := [];
       ContentGap.recommendations := [] |} ].

Lemma criticalGaps_first_five_distinct_witness :
  Forall
    (fun standard =>
       criticalGaps
         (generateAlignmentReport (fun _ _ => 0) sampleGaps standard)
       = ["a"; "b"; "c"; "d"; "e"]
       /\ JS.indexOf (flat_map ContentGap.missingTopics sampleGaps) "c"
          < JS.indexOf (flat_map ContentGap.missingTopics sampleGaps) "d")
    INDIAN_CURRICULUM_STANDARDS.
Proof.
  apply Forall_forall. intros standard _.
  destruct (criticalGaps_first_five_distinct (fun _ _ => 0) sampleGaps
              standard)
    as (distinct & Hcritical & Hdistinct & _ & _ & Horder & _).
  split.
  - rewrite Hcritical, Hdistinct. reflexivity.
  - apply Horder. rewrite Hdistinct.
    exists ["a"; "b"], [], ["e"; "f"]. reflexivity.
Defined.

(** *** The content mapping *)

Lemma getProperty_setOwnProperty {V : Type} (o : list (string * V))
  (key key' : string) (value : V) :
  JS.getProperty (JS.setOwnProperty o key value) key'
  = if (key =? key')%string then Some value else JS.getProperty o key'.
Proof.
  induction o as [|[k v] rest IH]; cbn [JS.setOwnProperty JS.getProperty].
  - reflexivity.
  - destruct (k =? key)%string eqn:Hk; cbn [JS.getProperty].
    + apply String.eqb_eq in Hk. subst k.
      now destruct (key =? key')%string.
    + destruct (k =? key')%string eqn:Hk'; [|exact IH].
      apply String.eqb_eq in Hk'. subst k.
      now rewrite String.eqb_sym, Hk.
Qed.

Lemma getProperty_setProperty {V : Type} (o : list (string * V))
  (key key' : string) (value : V) :
  JS.getProperty (JS.setProperty o key value) key'
  = if (key =? "__proto__")%string then JS.getProperty o key'
    else if (key =? key')%string then Some value
         else JS.getProperty o key'.
Proof.
  unfold JS.setProperty. destruct (key =? "__proto__")%string;
    [reflexivity | apply getProperty_setOwnProperty].
Qed.

Section MappingFacts.

Variable toLowerCase : string -> string.
Variables topic grade subject : string.

(** The standard lists the grade and the subject. *)
Definition covers (s : CurriculumStandard) : bool :=
  JS.arrayIncludes (grades s) grade && JS.arrayIncludes (subjects s) subject.

(** The standard gives the mapping an own entry under [key]. *)
Definition entered (key : string) (s : CurriculumStandard) : bool :=
  (id s =? key)%string && covers s && negb (key =? "__proto__")%string.

Definition slug : string :=
  (subject ++ "-" ++ grade ++ "-"
   ++ JS.replaceWhiteSpaceRuns (toLowerCase topic))%string.

Definition wellFormed (key : string) (entry : TopicAlignment.t) : Prop :=
  TopicAlignment.standardId entry = key
  /\ TopicAlignment.alignmentLevel entry = AlignmentLevel.partial
  /\ TopicAlignment.topicId entry = slug.

Lemma mapStandard_lookup (mappings : list (string * TopicAlignment.t))
  (s : CurriculumStandard) (key : string) :
  (forall entry, JS.getProperty mappings key = Some entry ->
                 wellFormed key entry) ->
  match JS.getProperty (mapStandard toLowerCase topic grade subject mappings s)
          key with
  | Some entry =>
      wellFormed key entry
      /\ (entered key s = true \/ JS.getProperty mappings key <> None)
  | None => entered key s = false /\ JS.getProperty mappings key = None
  end.
Proof.
  intros Hold. unfold mapStandard, entered. fold (covers s).
  assert (Hkeep :
            match JS.getProperty mappings key with
            | Some entry =>
                wellFormed key entry
                /\ (false = true \/ JS.getProperty mappings key <> None)
            | None => false = false /\ JS.getProperty mappings key = None
            end).
  { destruct (JS.getProperty mappings key) as [entry|] eqn:Hget.
    - split; [now apply Hold | right; discriminate].
    - now split. }
  destruct (covers s) eqn:Hcovers.
  - rewrite getProperty_setProperty, andb_true_r.
    destruct (id s =? key)%string eqn:Hid.
    + apply String.eqb_eq in Hid. rewrite <- Hid.
      destruct (id s =? "__proto__")%string; [rewrite Hid; exact Hkeep|].
      split; [|now left]. repeat split; cbn; reflexivity.
    + destruct (id s =? "__proto__")%string; exact Hkeep.
  - rewrite andb_false_r. exact Hkeep.
Qed.

Lemma createContentMapping_from (standards : list CurriculumStandard)
  (mappings : list (string * TopicAlignment.t)) (key : string) :
  (forall entry, JS.getProperty mappings key = Some entry ->
                 wellFormed key entry) ->
  match JS.getProperty
          (fold_left (mapStandard toLowerCase topic grade subject)
             standards mappings) key with
  | Some entry =>
      wellFormed key entry
      /\ (existsb (entered key) standards = true
          \/ JS.getProperty mappings key <> None)
  | None =>
      existsb (entered key) standards = false
      /\ JS.getProperty mappings key = None
  end.
Proof.
  revert mappings.
  induction standards as [|s rest IH]; intros mappings Hold;
    cbn [fold_left existsb].
  - destruct (JS.getProperty mappings key) as [entry|] eqn:Hget.
    + split; [now apply Hold | right; discriminate].
    + now split.
  - pose proof (mapStandard_lookup mappings s key Hold) as Hstep.
    specialize (IH (mapStandard toLowerCase topic grade subject mappings s)).
    destruct (JS.getProperty
                (mapStandard toLowerCase topic grade subject mappings s) key)
      as [stepped|] eqn:Hstepped.
    + destruct Hstep as [Hwf Hwhy].
      assert (Hold' : forall entry, Some stepped = Some entry ->
                                    wellFormed key entry)
        by (intros entry [= <-]; exact Hwf).
      specialize (IH Hold').
      destruct (JS.getProperty (fold_left _ rest _) key) as [entry|].
      * destruct IH as [Hentry _]. split; [exact Hentry|].
        destruct Hwhy as [-> | Hwhy]; [now left | now right].
      * destruct IH as [_ IH]. discriminate IH.
    + destruct Hstep as [Hs Hnone].
      assert (Hold' : forall entry, @None TopicAlignment.t = Some entry ->
                                    wellFormed key entry)
        by (intros entry [=]).
      specialize (IH Hold'). rewrite Hs, Hnone. cbn [orb].
      destruct (JS.getProperty (fold_left _ rest _) key) as [entry|].
      * destruct IH as [Hentry [IH|IH]]; [|congruence].
        split; [exact Hentry | now left].
      * destruct IH as [IH _]. now split.
Qed.

Lemma existsb_entered (standards : list CurriculumStandard) (key : string) :
  existsb (entered key) standards
  = existsb (fun s => (id s =? key)%string && covers s) standards
    && negb (key =? "__proto__")%string.
Proof.
  induction standards as [|s rest IH]; cbn [existsb]; [reflexivity|].
  rewrite IH. unfold entered.
  set (found := existsb (fun s => (id s =? key)%string && covers s) rest).
  now destruct (id s =? key)%string, (covers s),
    (key =? "__proto__")%string, found.
Qed.

(** X15.  [createContentMapping] has an own entry under a key exactly
    when the key is not [__proto__] and some standard of the list has
    that id and lists both the grade and the subject; the entry then
    names that key as its [standardId], has the alignment level partial,
    and has the topic id made of the subject, the grade and the
    lower-cased topic with each run of white space replaced by a hyphen.
    A standard whose id is [__proto__] adds no own entry: the assignment
    replaces the prototype of the mapping.  For the empty list of
    standards the mapping is empty. *)
Theorem createContentMapping_lookup
  (standards : list CurriculumStandard) (key : string) :
  match JS.getProperty
          (createContentMapping toLowerCase topic grade subject standards)
          key with
  | Some entry =>
      existsb (fun s => (id s =? key)%string && covers s) standards = true
      /\ key <> "__proto__"
      /\ TopicAlignment.standardId entry = key
      /\ TopicAlignment.alignmentLevel entry = AlignmentLevel.partial
      /\ TopicAlignment.topicId entry = slug
  | None =>
      existsb (fun s => (id s =? key)%string && covers s) standards = false
      \/ key = "__proto__"
  end.
Proof.
  unfold createContentMapping.
  assert (Hempty : forall entry,
             JS.getProperty (@nil (string * TopicAlignment.t)) key
             = Some entry -> wellFormed key entry)
    by (intros entry [=]).
  pose proof (createContentMapping_from standards [] key Hempty) as H.
  rewrite existsb_entered in H.
  destruct (JS.getProperty (fold_left _ standards _) key) as [entry|].
  - destruct H as [(H1 & H2 & H3) [H|H]]; [|now cbn in H].
    apply andb_true_iff in H. destruct H as [Hsome Hkey].
    apply negb_true_iff, String.eqb_neq in Hkey.
    repeat split; assumption.
  - destruct H as [H _]. apply andb_false_iff in H.
    destruct H as [H|H]; [now left | right].
    apply negb_false_iff in H. now apply String.eqb_eq.
Qed.

End MappingFacts.

End AlignmentFacts.

(* ------------------------------------------------------------------ *)
(** ** The file validation *)

Module FileValidationFacts.
Import FileValidation.

Definition emptyMessage : string := "File appears to be empty or corrupted".

Definition sizeMessage (file : File) : string :=
  ("File size " ++ JS.megabytesToFixed1 (size file)
   ++ "MB exceeds 10MB limit")%string.

Definition typeMessage (file : File) : string :=
  ("File type " ++ JS.doubleQuote ++ type file ++ JS.doubleQuote
   ++ " not supported")%string.

Definition nameMessage : string :=
  "File name suggests inappropriate content for educational use".

Definition audioMessage : string :=
  "Audio files over 15MB may not work well in low-bandwidth school environments".

Definition audioWarning : string :=
  "Ensure audio is clear and appropriate for classroom playback".

(** An image whose lower-cased name holds the word inappropriate. *)
Definition suspectImage (file : File) : bool :=
  JS.startsWith (type file) "image/"
  && JS.includes (JS.toLowerCase (name file)) "inappropriate".

Lemma validateBasicFile_cases (file : File) :
  (size file = 0%N /\ validateBasicFile file = rejected emptyMessage)
  \/ ((maxSize < size file)%N
      /\ validateBasicFile file = rejected (sizeMessage file))
  \/ ((0 < size file <= maxSize)%N
      /\ JS.arrayIncludes allowedTypes (type file) = false
      /\ validateBasicFile file = rejected (typeMessage file))
  \/ ((0 < size file <= maxSize)%N
      /\ JS.arrayIncludes allowedTypes (type file) = true
      /\ validateBasicFile file
         = {| isValid := true; error := None; warnings := None |}).
Proof.
  unfold validateBasicFile.
  destruct (N.eqb_spec (size file) 0) as [H0|H0]; [now left|].
  destruct (N.ltb_spec maxSize (size file)) as [Hmax|Hmax];
    [right; now left|].
  destruct (JS.arrayIncludes allowedTypes (type file)) eqn:Htype;
    cbn [negb].
  - do 3 right. repeat split; try reflexivity; lia.
  - do 2 right. left. repeat split; try reflexivity; lia.
Qed.

(** X16.  A file is valid exactly when it is not empty, is at most
    10 MB (10485760 bytes), has one of the eleven allowed types, and is
    not an image whose name contains the word inappropriate in any
    letter case. *)
Theorem validateEducationalFile_valid_iff (file : File) :
  isValid (validateEducationalFile file) = true
  <-> (0 < size file <= 10485760)%N
      /\ In (type file) allowedTypes
      /\ suspectImage file = false.
Proof.
  rewrite <- AlignmentFacts.arrayIncludes_In.
  unfold validateEducationalFile. fold (suspectImage file).
  destruct (validateBasicFile_cases file)
    as [[H0 ->] | [[Hmax ->] | [(Hsize & Htype & ->) | (Hsize & Htype & ->)]]];
    cbn [isValid rejected negb]; unfold maxSize in *.
  - split; [discriminate | lia].
  - split; [discriminate | lia].
  - split; [discriminate | intros (_ & H & _); congruence].
  - destruct (suspectImage file); cbn [isValid rejected].
    + split; [discriminate | intros (_ & _ & H); discriminate H].
    + assert (Haudio : (15 * 1024 * 1024 <? size file)%N = false)
        by (apply N.ltb_ge; lia).
      rewrite Haudio.
      destruct (JS.startsWith (type file) "audio/"); cbn [isValid];
        (split; [intros _; repeat split; (assumption || lia) | reflexivity]).
Qed.

(** X17.  The outcome of [validateEducationalFile] is one of two
    shapes.  A valid result has no error and a list of at most one
    warning, which is the audio warning exactly for the audio types.  An
    invalid result has no warnings and one of four errors: empty file,
    size over 10 MB, unsupported type, or suspicious image name.  The
    15 MB audio error is never returned, since a file that large has
    already failed the 10 MB limit. *)
Theorem validateEducationalFile_outcomes (file : File) :
  error (validateEducationalFile file) <> Some audioMessage
  /\ ((isValid (validateEducationalFile file) = true
       /\ error (validateEducationalFile file) = None
       /\ exists ws,
            warnings (validateEducationalFile file) = Some ws
            /\ (List.length ws <= 1)%nat
            /\ (In audioWarning ws
                <-> JS.startsWith (type file) "audio/" = true))
      \/ (isValid (validateEducationalFile file) = false
          /\ warnings (validateEducationalFile file) = None
          /\ (error (validateEducationalFile file) = Some emptyMessage
              \/ error (validateEducationalFile file)
                 = Some (sizeMessage file)
              \/ error (validateEducationalFile file)
                 = Some (typeMessage file)
              \/ error (validateEducationalFile file) = Some nameMessage))).
Proof.
  unfold validateEducationalFile. fold (suspectImage file).
  destruct (validateBasicFile_cases file)
    as [[H0 ->] | [[Hmax ->] | [(Hsize & Htype & ->) | (Hsize & Htype & ->)]]];
    cbn [isValid rejected negb error warnings].
  - split; [discriminate|]. right. auto.
  - split; [unfold sizeMessage; cbn; discriminate|]. right. auto.
  - split; [unfold typeMessage; cbn; discriminate|]. right. auto 6.
  - destruct (suspectImage file); cbn [isValid rejected error warnings].
    { split; [discriminate|]. right. auto 6. }
    assert (Haudio : (15 * 1024 * 1024 <? size file)%N = false)
      by (apply N.ltb_ge; unfold maxSize in *; lia).
    rewrite Haudio. clear Haudio Hsize.
    destruct file as [n sz t]. cbn [type size name] in *.
    apply AlignmentFacts.arrayIncludes_In in Htype.
    unfold allowedTypes in Htype. cbn [In] in Htype.
    repeat destruct Htype as [<-|Htype]; try contradiction;
      cbn [JS.startsWith JS.includes Ascii.eqb Bool.eqb andb orb];
      repeat match goal with
             | |- context [(?k <? sz)%N] => destruct (k <? sz)%N
             end;
      cbn [isValid error warnings app];
      (split; [discriminate|]); left;
      (split; [reflexivity|]); (split; [reflexivity|]);
      eexists; (split; [reflexivity|]);
      (split; [cbn; lia|]);
      (split; [intros H; cbn in H; intuition discriminate
              | intros H; first [discriminate H | now left]]).
Qed.

Definition failedChecks (diagnostic : FileSystemDiagnostic) : nat :=
  List.length
    (filter negb
       [browserSupport diagnostic; storageAvailable diagnostic;
        networkStatus diagnostic; permissions diagnostic]).

(** X18.  [getRecoveryInstructions] never returns an empty list: it
    gives one instruction for each failed check of the diagnostic, and
    the three general instructions when every check passed. *)
Theorem getRecoveryInstructions_count (diagnostic : FileSystemDiagnostic) :
  getRecoveryInstructions diagnostic <> []
  /\ List.length (getRecoveryInstructions diagnostic)
     = match failedChecks diagnostic with
       | O => 3%nat
       | failed => failed
       end.
Proof.
  destruct diagnostic as [[] [] [] []]; cbn; split;
    (reflexivity || discriminate).
Qed.

End FileValidationFacts.
